(** * Voice: the presentation layer of the push-to-talk transcriber

    A shallow embedding of the React front end ([App.tsx],
    [components/Overlay.tsx], [components/Settings.tsx]) and the properties
    its specification states about it.

    Conventions of the embedding:
    - a component is the record of its [useState] cells; a listener or a
      handler is a function from that record to the record after the callback
      has run (React applies the updates of one callback together);
    - [invoke] is a logged effect: every handler returns the commands it sent
      to the Tauri back end, in order; the reply of the back end is an input;
    - byte counts are integer-valued JavaScript numbers and are kept in [Z];
      the quotient of two of them is a [number], which has the two infinities
      and NaN next to the finite values (as exact rationals: rounding of
      IEEE doubles and the sign of zero are not represented);
    - the audio level and the animation clock feed [Math.sin] and [Math.cos],
      so the equalizer is stated over the real numbers of the [Reals]
      library. *)

From Stdlib Require Import List String Ascii Bool ZArith QArith Qround.
From Stdlib Require Import Reals Lra Lia.
From Stdlib Require Import Permutation.
Import ListNotations.

(** ** JavaScript numbers *)

Module Js.

Inductive number : Type :=
| Finite (q : Q)
| PosInfinity
| NegInfinity
| NaN.

Definition of_int (z : Z) : number := Finite (inject_Z z).

(** [a / b] for integer-valued operands. Division by zero does not throw:
    it yields an infinity of the sign of [a], or NaN for [0 / 0]. A finite
    quotient is the exact rational; the binary64 quotient of the code can lie
    just beside it, which shows when a product falls on a half (23 / 40 * 100
    is 57.5 here and just below it in binary64). What is proved of finite
    percentages below (ranges, monotonicity, guards) does not depend on
    that. *)
Definition div (a b : Z) : number :=
  if (b =? 0)%Z then
    if (0 <? a)%Z then PosInfinity
    else if (a <? 0)%Z then NegInfinity
    else NaN
  else Finite (inject_Z a / inject_Z b).

(** [x * y]. *)
Definition mul (x y : number) : number :=
  match x, y with
  | NaN, _ | _, NaN => NaN
  | Finite p, Finite q => Finite (p * q)
  | Finite p, PosInfinity | PosInfinity, Finite p =>
      match (p ?= 0)%Q with
      | Eq => NaN
      | Gt => PosInfinity
      | Lt => NegInfinity
      end
  | Finite p, NegInfinity | NegInfinity, Finite p =>
      match (p ?= 0)%Q with
      | Eq => NaN
      | Gt => NegInfinity
      | Lt => PosInfinity
      end
  | PosInfinity, PosInfinity | NegInfinity, NegInfinity => PosInfinity
  | PosInfinity, NegInfinity | NegInfinity, PosInfinity => NegInfinity
  end.

(** [Math.round]: the nearest integer, ties towards plus infinity. *)
Definition Math_round (x : number) : number :=
  match x with
  | Finite q => of_int (Qfloor (q + (1 # 2)))
  | other => other
  end.

(** What a CSS width of [`${x}%`] can show: a finite value. *)
Definition is_finite (x : number) : bool :=
  match x with
  | Finite _ => true
  | _ => false
  end.

End Js.

(** ** The command bridge ([invoke]) *)

Module Tauri.

Inductive command : Type :=
| is_model_ready
| download_whisper_model
| get_available_models
| get_model_info
| set_model_size (size : string)
| download_model_size (size : string)
| get_audio_devices
| get_current_device
| set_audio_device (deviceName : option string)
| check_microphone_permission
| check_accessibility_permission
| open_microphone_settings
| open_accessibility_settings
| close_settings_window.

(** How the promise returned by [invoke] settles. *)
Inductive promise (A : Type) : Type :=
| fulfilled (value : A)
| rejected (reason : string).

Arguments fulfilled {A} value.
Arguments rejected {A} reason.

End Tauri.

(** ** [App.tsx] *)

Module App.

Inductive surface : Type :=
| SettingsSurface
| OverlaySurface.

Definition App (pathname : string) : surface :=
  let isSettingsWindow := String.eqb pathname "/settings" in
  if isSettingsWindow then SettingsSurface else OverlaySurface.

(** The JSX tree as the list of the surfaces it mounts. *)
Definition rendered (pathname : string) : list surface := [App pathname].

End App.

(** ** [components/Overlay.tsx] *)

Module Overlay.

Import Js Tauri.

Inductive RecordingState : Type :=
| idle
| recording
| processing
| done
| error.

Definition RecordingState_eqb (a b : RecordingState) : bool :=
  match a, b with
  | idle, idle | recording, recording | processing, processing
  | done, done | error, error => true
  | _, _ => false
  end.

(** *** StateVisualizer *)

Record BarStyle : Type := mkBarStyle { height : R; opacity : R }.

Definition barCount : nat := 18.

Section Visualizer.

Local Open Scope R_scope.

Variable state : RecordingState.
Variable level : R.
Variable tick : nat.

Definition getBarStyle (index : nat) : BarStyle :=
  match state with
  | recording =>
      let wave := sin (INR tick / 8 + INR index * 0.7) * 0.4
                  + cos (INR tick / 12 + INR index * 1.1) * 0.3 in
      let baseHeight := 0.3 + wave * 0.5 in
      let height := 8 + (level * (baseHeight + 0.5) * 28) in
      mkBarStyle (Rmax 8 (Rmin 36 height)) 0.85
  | processing =>
      let pulse := sin (INR tick / 15 + INR index * 0.3) * 0.5 + 0.5 in
      mkBarStyle (6 + pulse * 4) (0.5 + pulse * 0.3)
  | _ => mkBarStyle 0 0
  end.

Definition showBars : bool :=
  RecordingState_eqb state recording || RecordingState_eqb state processing.

Definition showIcon : bool :=
  RecordingState_eqb state done || RecordingState_eqb state error.

(** The bars of one frame, left to right. *)
Definition StateVisualizer : list BarStyle :=
  map getBarStyle (seq 0 barCount).

End Visualizer.

(** *** The overlay component *)

Record OverlayState : Type := mkOverlay {
  state : RecordingState;
  modelReady : bool;
  audioLevel : R;
  downloadProgress : option (Z * Z)   (* { downloaded, total } or null *)
}.

Definition initial : OverlayState := mkOverlay idle false 0%R None.

Definition setState (v : RecordingState) (o : OverlayState) : OverlayState :=
  mkOverlay v (modelReady o) (audioLevel o) (downloadProgress o).

Definition setModelReady (v : bool) (o : OverlayState) : OverlayState :=
  mkOverlay (state o) v (audioLevel o) (downloadProgress o).

Definition setAudioLevel (v : R) (o : OverlayState) : OverlayState :=
  mkOverlay (state o) (modelReady o) v (downloadProgress o).

Definition setDownloadProgress (v : option (Z * Z)) (o : OverlayState)
  : OverlayState :=
  mkOverlay (state o) (modelReady o) (audioLevel o) v.

(** The mount effect: ask [is_model_ready]; the continuation stores the
    answer and starts the download when the answer is [false]. A rejected
    query runs no continuation. *)
Definition on_is_model_ready (ready : bool) (o : OverlayState)
  : list command * OverlayState :=
  let o := setModelReady ready o in
  if negb ready then ([download_whisper_model], o) else ([], o).

Definition mount (reply : promise bool) (o : OverlayState)
  : list command * OverlayState :=
  match reply with
  | fulfilled ready =>
      let '(sent, o') := on_is_model_ready ready o in
      (is_model_ready :: sent, o')
  | rejected _ => ([is_model_ready], o)
  end.

(** The events the component subscribes to, with their payloads. *)
Inductive event : Type :=
| download_progress (downloaded total : Z)
| recording_started
| audio_level (payload : R)
| recording_stopped
| transcription_started
| transcription_complete (text : string)
| transcription_error (reason : string).

(** One listener callback. *)
Definition listen (e : event) (o : OverlayState) : OverlayState :=
  match e with
  | download_progress downloaded total =>
      let o := setDownloadProgress (Some (downloaded, total)) o in
      if (downloaded >=? total)%Z
      then setDownloadProgress None (setModelReady true o)
      else o
  | recording_started => setAudioLevel 0%R (setState recording o)
  | audio_level payload => setAudioLevel payload o
  | recording_stopped => setAudioLevel 0%R (setState processing o)
  | transcription_started => setState processing o
  | transcription_complete _ => setState done o
  | transcription_error _ => setState error o
  end.

(** Events are delivered one at a time, oldest first. *)
Definition deliver (events : list event) (o : OverlayState) : OverlayState :=
  fold_left (fun acc e => listen e acc) events o.

(** The [state] shown after each event of a run. *)
Fixpoint shown (events : list event) (o : OverlayState)
  : list RecordingState :=
  match events with
  | [] => []
  | e :: rest => state (listen e o) :: shown rest (listen e o)
  end.

(** Everything that can make the overlay change: an event from the back end
    or an animation frame of the visualizer (which only advances its
    clock). The component sets no timer of its own. *)
Inductive input : Type :=
| Event (e : event)
| AnimationFrame.

Definition step (i : input) (ui : OverlayState * nat) : OverlayState * nat :=
  match i with
  | Event e => (listen e (fst ui), snd ui)
  | AnimationFrame => (fst ui, S (snd ui))
  end.

Definition percent (progress : Z * Z) : number :=
  let '(downloaded, total) := progress in
  if (total =? 0)%Z then of_int 0
  else Math_round (mul (div downloaded total) (of_int 100)).

Inductive view : Type :=
| ProgressBar (width : number)
| Visualizer (bars : list BarStyle) (icon : bool)
| Empty.

Definition render (o : OverlayState) (tick : nat) : view :=
  match modelReady o, downloadProgress o with
  | false, Some progress => ProgressBar (percent progress)
  | _, _ =>
      if RecordingState_eqb (state o) idle then Empty
      else Visualizer (StateVisualizer (state o) (audioLevel o) tick)
                      (showIcon (state o))
  end.

End Overlay.

(** ** [components/Settings.tsx] *)

Module Settings.

Import Js Tauri.

(** [[id, label, downloaded]] as [get_available_models] returns it. *)
Definition ModelInfo : Type := (string * string * bool)%type.

Definition model_id (m : ModelInfo) : string := fst (fst m).
Definition model_label (m : ModelInfo) : string := snd (fst m).
Definition model_downloaded (m : ModelInfo) : bool := snd m.

Record DownloadProgress : Type := mkProgress {
  size : string;
  downloaded : Z;
  total : Z
}.

Record SettingsState : Type := mkSettings {
  devices : list string;
  currentDevice : option string;
  models : list ModelInfo;
  selectedModel : string;
  micPermission : bool;
  accessibilityPermission : bool;
  downloading : option string;
  downloadProgress : option DownloadProgress
}.

Definition initial : SettingsState :=
  mkSettings [] None [] "small" true false None None.

Definition setCurrentDevice (v : option string) (s : SettingsState) :=
  mkSettings (devices s) v (models s) (selectedModel s) (micPermission s)
             (accessibilityPermission s) (downloading s) (downloadProgress s).

Definition setModels (v : list ModelInfo) (s : SettingsState) :=
  mkSettings (devices s) (currentDevice s) v (selectedModel s)
             (micPermission s) (accessibilityPermission s) (downloading s)
             (downloadProgress s).

Definition setSelectedModel (v : string) (s : SettingsState) :=
  mkSettings (devices s) (currentDevice s) (models s) v (micPermission s)
             (accessibilityPermission s) (downloading s) (downloadProgress s).

Definition setDownloading (v : option string) (s : SettingsState) :=
  mkSettings (devices s) (currentDevice s) (models s) (selectedModel s)
             (micPermission s) (accessibilityPermission s) v
             (downloadProgress s).

Definition setDownloadProgress (v : option DownloadProgress)
  (s : SettingsState) :=
  mkSettings (devices s) (currentDevice s) (models s) (selectedModel s)
             (micPermission s) (accessibilityPermission s) (downloading s) v.

(** The queries of the mount effect, in the order they are sent. *)
Definition mount : list command :=
  [get_audio_devices; get_current_device; get_available_models;
   get_model_info; check_microphone_permission;
   check_accessibility_permission].

(** [.then(setModels).catch(console.error)] *)
Definition on_available_models (reply : promise (list ModelInfo))
  (s : SettingsState) : SettingsState :=
  match reply with
  | fulfilled listed => setModels listed s
  | rejected _ => s
  end.

(** The [model-download-progress] listener: the state after the callback and
    the command it sends. The reply to that command arrives later, through
    [on_available_models]. *)
Definition on_model_download_progress (payload : string * Z * Z)
  (s : SettingsState) : list command * SettingsState :=
  let '(size, downloaded, total) := payload in
  let s := setDownloadProgress (Some (mkProgress size downloaded total)) s in
  if (downloaded >=? total)%Z
  then ([get_available_models],
        setDownloadProgress None (setDownloading None s))
  else ([], s).

(** *** Async handlers

    An [async] handler reads and writes the component state, sends commands
    and stops at the first [await] whose promise is rejected. *)

Inductive completion (A : Type) : Type :=
| returned (value : A)
| threw (reason : string).

Arguments returned {A} value.
Arguments threw {A} reason.

Record run (A : Type) : Type := mkRun {
  after : SettingsState;
  invoked : list command;
  result : completion A
}.

Arguments mkRun {A} after invoked result.
Arguments after {A} r.
Arguments invoked {A} r.
Arguments result {A} r.

Definition handler (A : Type) : Type := SettingsState -> run A.

Definition ret {A : Type} (a : A) : handler A :=
  fun s => mkRun s [] (returned a).

Definition bind {A B : Type} (m : handler A) (k : A -> handler B)
  : handler B :=
  fun s =>
    let r := m s in
    match result r with
    | returned a =>
        let r' := k a (after r) in
        mkRun (after r') (invoked r ++ invoked r') (result r')
    | threw reason => mkRun (after r) (invoked r) (threw reason)
    end.

Definition read : handler SettingsState :=
  fun s => mkRun s [] (returned s).

Definition update (f : SettingsState -> SettingsState) : handler unit :=
  fun s => mkRun (f s) [] (returned tt).

Notation "x <- m ;; k" := (bind m (fun x => k))
  (at level 61, m at next level, right associativity).
Notation "m ;; k" := (bind m (fun _ => k))
  (at level 61, right associativity).

Section Handlers.

(** How the back end settles each command that a handler awaits. *)
Variable backend : command -> promise unit.

Definition await_invoke (c : command) : handler unit :=
  fun s =>
    mkRun s [c]
          match backend c with
          | fulfilled _ => returned tt
          | rejected reason => threw reason
          end.

Definition handleDeviceChange (deviceName : string) : handler unit :=
  let device :=
    if String.eqb deviceName "default" then None else Some deviceName in
  await_invoke (set_audio_device device) ;;
  update (setCurrentDevice device).

Definition handleModelSelect (size : string) : handler unit :=
  s <- read ;;
  match find (fun m => String.eqb (model_id m) size) (models s) with
  | None => ret tt
  | Some model =>
      if model_downloaded model then
        await_invoke (set_model_size size) ;;
        update (setSelectedModel size)
      else
        update (setDownloading (Some size)) ;;
        await_invoke (download_model_size size) ;;
        update (setSelectedModel size)
  end.

End Handlers.

(** *** The audio-input selector *)

Inductive choice : Type :=
| SystemDefault
| Device (name : string).

(** The [value] attribute of an [<option>]. *)
Definition option_value (c : choice) : string :=
  match c with
  | SystemDefault => "default"
  | Device name => name
  end.

(** The options of the [<select>], top to bottom. *)
Definition selector (s : SettingsState) : list choice :=
  SystemDefault :: map Device (devices s).

(** [onChange={(e) => handleDeviceChange(e.target.value)}] *)
Definition onChange (backend : command -> promise unit) (c : choice)
  : handler unit :=
  handleDeviceChange backend (option_value c).

(** *** One row of the model list *)

Record row : Type := mkRow {
  isSelected : bool;
  isDownloading : bool;
  progress : number;
  disabled : bool;
  downloadBadge : bool
}.

Definition model_row (s : SettingsState) (m : ModelInfo) : row :=
  let '(id, _, is_downloaded) := m in
  let isSelected := String.eqb (selectedModel s) id in
  let isDownloading :=
    match downloading s with
    | Some d => String.eqb d id
    | None => false
    end in
  let progress :=
    match downloadProgress s with
    | Some p =>
        if String.eqb (size p) id
        then Math_round (mul (div (downloaded p) (total p)) (of_int 100))
        else of_int 0
    | None => of_int 0
    end in
  mkRow isSelected isDownloading progress isDownloading
        (negb is_downloaded && negb isDownloading).

(** [onClick={() => handleModelSelect(size)}] on a button that is disabled
    while its model is downloading: a disabled button runs no handler. *)
Definition onClick (backend : command -> promise unit) (m : ModelInfo)
  : handler unit :=
  fun s =>
    if disabled (model_row s m) then ret tt s
    else handleModelSelect backend (model_id m) s.

(** *** [handleModelSelect] around its [await]

    The handler suspends at [await invoke(...)]; listeners and other handlers
    run while it is suspended, and it resumes on the state of the moment the
    promise settles. [handleModelSelect] above is the run in which nothing
    happens in between. *)

(** Up to the [await]: the state the handler leaves and the command whose
    promise it waits for (none when the id is not in the catalog). *)
Definition handleModelSelect_until_await (size : string) (s : SettingsState)
  : SettingsState * option command :=
  match find (fun m => String.eqb (model_id m) size) (models s) with
  | None => (s, None)
  | Some model =>
      if model_downloaded model
      then (s, Some (set_model_size size))
      else (setDownloading (Some size) s, Some (download_model_size size))
  end.

(** From the [await] on: both branches continue with
    [setSelectedModel(size)]; a rejected promise ends the handler. *)
Definition handleModelSelect_after_await (size : string)
  (settled : promise unit) (s : SettingsState) : SettingsState :=
  match settled with
  | fulfilled _ => setSelectedModel size s
  | rejected _ => s
  end.

(** *** The rest of the component *)

Definition setDevices (v : list string) (s : SettingsState) :=
  mkSettings v (currentDevice s) (models s) (selectedModel s)
             (micPermission s) (accessibilityPermission s) (downloading s)
             (downloadProgress s).

Definition setMicPermission (v : bool) (s : SettingsState) :=
  mkSettings (devices s) (currentDevice s) (models s) (selectedModel s) v
             (accessibilityPermission s) (downloading s) (downloadProgress s).

Definition setAccessibilityPermission (v : bool) (s : SettingsState) :=
  mkSettings (devices s) (currentDevice s) (models s) (selectedModel s)
             (micPermission s) v (downloading s) (downloadProgress s).

(** The settled promise of one query of the mount effect. *)
Inductive reply : Type :=
| audio_devices (settled : promise (list string))
| current_device (settled : promise (option string))
| available_models (settled : promise (list ModelInfo))
| model_info (settled : promise (string * bool))
| microphone_permission (settled : promise bool)
| accessibility_permission (settled : promise bool).

(** The query a reply answers. *)
Definition answers (r : reply) : command :=
  match r with
  | audio_devices _ => get_audio_devices
  | current_device _ => get_current_device
  | available_models _ => get_available_models
  | model_info _ => get_model_info
  | microphone_permission _ => check_microphone_permission
  | accessibility_permission _ => check_accessibility_permission
  end.

(** [.then(setter).catch(console.error)]: a fulfilled reply is stored in its
    cell ([get_model_info] keeps the first component only), a rejected one is
    logged and stores nothing. *)
Definition on_reply (r : reply) (s : SettingsState) : SettingsState :=
  match r with
  | audio_devices (fulfilled v) => setDevices v s
  | current_device (fulfilled v) => setCurrentDevice v s
  | available_models settled => on_available_models settled s
  | model_info (fulfilled (size, _)) => setSelectedModel size s
  | microphone_permission (fulfilled v) => setMicPermission v s
  | accessibility_permission (fulfilled v) => setAccessibilityPermission v s
  | _ => s
  end.

(** [value={currentDevice ?? "default"}] of the audio-input [<select>]. *)
Definition select_value (s : SettingsState) : string :=
  match currentDevice s with
  | Some device => device
  | None => "default"
  end.

(** The rows of the model list, top to bottom. *)
Definition model_rows (s : SettingsState) : list row :=
  map (model_row s) (models s).

(** Everything that can change the panel: a reply to a query, a progress
    event, a click on a model row, a change of the audio input. A handler is
    taken with the reply of the back end it meets. *)
Inductive action : Type :=
| Reply (r : reply)
| Progress (payload : string * Z * Z)
| Click (backend : command -> promise unit) (m : ModelInfo)
| Change (backend : command -> promise unit) (deviceName : string).

Definition act (a : action) (s : SettingsState) : SettingsState :=
  match a with
  | Reply r => on_reply r s
  | Progress payload => snd (on_model_download_progress payload s)
  | Click backend m => after (onClick backend m s)
  | Change backend deviceName => after (handleDeviceChange backend deviceName s)
  end.

Definition perform (actions : list action) (s : SettingsState)
  : SettingsState :=
  fold_left (fun acc a => act a acc) actions s.

End Settings.

(** ** Event sequences the specification talks about *)

Module Scenario.

Import Overlay.

(** One press-speak-release cycle as the overlay sees it: the recording
    starts, one level per captured chunk, the recording stops, the
    transcription starts and then ends with [ending]. *)
Definition session (levels : list R) (ending : event) : list event :=
  recording_started :: map audio_level levels
    ++ [recording_stopped; transcription_started; ending].

(** What the overlay hears of a recording up to the release of the hotkey,
    however short it was. *)
Definition press_and_release (levels : list R) : list event :=
  recording_started :: map audio_level levels ++ [recording_stopped].

(** The progress ticks of one download job. *)
Definition job_events (job : list (Z * Z)) : list event :=
  map (fun tick => download_progress (fst tick) (snd tick)) job.

(** A progress tick at or past the end of the transfer. *)
Definition is_terminal (e : event) : bool :=
  match e with
  | download_progress downloaded total => (downloaded >=? total)%Z
  | _ => false
  end.

(** Events that carry no state name: they leave [state] alone. *)
Definition is_silent (e : event) : bool :=
  match e with
  | download_progress _ _ | audio_level _ => true
  | _ => false
  end.

(** Events after which an overlay that shows processing still shows it. *)
Definition is_waiting (e : event) : bool :=
  match e with
  | recording_stopped | transcription_started => true
  | other => is_silent other
  end.

(** The value a choice of the audio-input selector stands for: null for
    "System Default", the name of the device otherwise. *)
Definition committed (c : Settings.choice) : option string :=
  match c with
  | Settings.SystemDefault => None
  | Settings.Device name => Some name
  end.

(** A back end that fulfils every command, as the test double of the
    repository does. *)
Definition accepting : Tauri.command -> Tauri.promise unit :=
  fun _ => Tauri.fulfilled tt.

(** A settings panel whose catalog holds a downloaded and a missing model. *)
Definition two_models : Settings.SettingsState :=
  Settings.setModels
    [("small", "Small (500MB)", true); ("medium", "Medium (1.5GB)", false)]%string
    Settings.initial.

(** A settings panel on a machine with an input device called "default". *)
Definition device_called_default : Settings.SettingsState :=
  Settings.mkSettings ["default"; "USB Microphone"]%string None [] "small"
                      true false None None.

(** The state an event names, when it names one. *)
Definition named_state (e : event) : option RecordingState :=
  match e with
  | recording_started => Some recording
  | recording_stopped | transcription_started => Some processing
  | transcription_complete _ => Some done
  | transcription_error _ => Some error
  | download_progress _ _ | audio_level _ => None
  end.

(** The state named by the last event of a run that names one. *)
Fixpoint last_named (events : list event) : option RecordingState :=
  match events with
  | [] => None
  | e :: rest =>
      match last_named rest with
      | Some st => Some st
      | None => named_state e
      end
  end.

Definition is_progress (e : event) : bool :=
  match e with
  | download_progress _ _ => true
  | _ => false
  end.

Definition is_recording_event (e : event) : bool := negb (is_progress e).

(** Progress events whose downloaded count is not negative. *)
Definition counts_bytes (e : event) : bool :=
  match e with
  | download_progress downloaded _ => (0 <=? downloaded)%Z
  | _ => true
  end.

(** The stored progress of the overlay, when there is one, is a tick below
    its total. *)
Definition stored_is_partial (o : OverlayState) : Prop :=
  match downloadProgress o with
  | Some (d, t) => (0 <= d < t)%Z
  | None => True
  end.

(** The stored progress of the settings panel, when there is one, is a tick
    below its total. *)
Definition stored_tick_is_partial (s : Settings.SettingsState) : Prop :=
  match Settings.downloadProgress s with
  | Some p => (0 <= Settings.downloaded p < Settings.total p)%Z
  | None => True
  end.

(** Actions that do not write the downloading mark: replies, device
    changes and progress events below their total. *)
Definition leaves_mark (a : Settings.action) : bool :=
  match a with
  | Settings.Reply _ => true
  | Settings.Progress (_, downloaded, total) => (downloaded <? total)%Z
  | Settings.Click _ _ => false
  | Settings.Change _ _ => true
  end.

(** The same for the actions of the settings panel. *)
Definition action_counts_bytes (a : Settings.action) : bool :=
  match a with
  | Settings.Progress (_, downloaded, _) => (0 <=? downloaded)%Z
  | _ => true
  end.

End Scenario.

(** * Properties *)

(** ** App *)

Module AppFacts.

Import App.

(** C10: the root renders the Settings surface exactly when the path name is
    ["/settings"] and the Overlay surface in every other case; the rendered
    tree always holds one surface, never both and never none. *)
Theorem App_routes_by_pathname (pathname : string) :
  (App pathname = SettingsSurface <-> pathname = "/settings"%string) /\
  (App pathname = OverlaySurface <-> pathname <> "/settings"%string) /\
  (rendered pathname = [SettingsSurface]
   \/ rendered pathname = [OverlaySurface]) /\
  rendered pathname <> [] /\
  rendered pathname <> [SettingsSurface; OverlaySurface] /\
  rendered pathname <> [OverlaySurface; SettingsSurface].
Proof.
  unfold rendered, App.
  destruct (String.eqb_spec pathname "/settings") as [Heq | Hne].
  - repeat split; try congruence; try discriminate; auto.
  - repeat split; try congruence; try discriminate; auto.
Qed.

Example App_settings_window : App "/settings" = SettingsSurface.
Proof. reflexivity. Qed.

Example App_main_window : App "/" = OverlaySurface.
Proof. reflexivity. Qed.

Example App_is_case_sensitive : App "/Settings" = OverlaySurface.
Proof. reflexivity. Qed.

End AppFacts.

(** ** Overlay *)

Module OverlayFacts.

Import Js Tauri Overlay Scenario.

(** *** Running the listeners *)

Lemma deliver_app (xs ys : list event) (o : OverlayState) :
  deliver (xs ++ ys) o = deliver ys (deliver xs o).
Proof. unfold deliver. apply fold_left_app. Qed.

Lemma deliver_cons (e : event) (rest : list event) (o : OverlayState) :
  deliver (e :: rest) o = deliver rest (listen e o).
Proof. reflexivity. Qed.

Lemma shown_app (xs ys : list event) (o : OverlayState) :
  shown (xs ++ ys) o = shown xs o ++ shown ys (deliver xs o).
Proof.
  revert o. induction xs as [| e xs IH]; intro o; simpl.
  - reflexivity.
  - rewrite IH. reflexivity.
Qed.

(** Level events keep the overlay in whatever state it shows. *)
Lemma state_after_levels (levels : list R) (o : OverlayState) :
  state (deliver (map audio_level levels) o) = state o.
Proof.
  revert o. induction levels as [| l levels IH]; intro o.
  - reflexivity.
  - simpl map. rewrite deliver_cons, IH. reflexivity.
Qed.

Lemma shown_levels (levels : list R) (o : OverlayState) :
  shown (map audio_level levels) o = repeat (state o) (List.length levels).
Proof.
  revert o. induction levels as [| l levels IH]; intro o; simpl.
  - reflexivity.
  - rewrite IH. reflexivity.
Qed.

(** Silent events never change the state name. *)
Lemma silent_keeps_state (e : event) (o : OverlayState) :
  is_silent e = true -> state (listen e o) = state o.
Proof.
  destruct e as [d t | | l | | | text | reason]; simpl; try discriminate.
  - intros _. destruct (d >=? t)%Z; reflexivity.
  - reflexivity.
Qed.

(** The state name after a listener depends on the event alone, unless the
    event is silent. *)
Lemma state_after_listen (e : event) (o : OverlayState) :
  state (listen e o) =
  match e with
  | recording_started => recording
  | recording_stopped | transcription_started => processing
  | transcription_complete _ => done
  | transcription_error _ => error
  | download_progress _ _ | audio_level _ => state o
  end.
Proof.
  destruct e as [d t | | l | | | text | reason]; simpl; try reflexivity.
  destruct (d >=? t)%Z; reflexivity.
Qed.

(** No listener writes ["idle"]: the overlay shows it only if it showed it
    before the event. *)
Lemma idle_is_never_entered (e : event) (o : OverlayState) :
  state (listen e o) = idle -> state o = idle /\ is_silent e = true.
Proof.
  rewrite state_after_listen.
  destruct e; simpl; intro H; try discriminate; auto.
Qed.

(** C5: for the event sequence recording-started, any number of audio-level
    events, recording-stopped, transcription-started and then
    transcription-complete (resp. transcription-error), the overlay shows
    recording through the level events, then processing, and ends in done
    (resp. error), whatever it showed before; and each of the named events
    sends every state to its one successor. *)
Theorem overlay_follows_session (o : OverlayState) (levels : list R)
  (text reason : string) :
  shown (session levels (transcription_complete text)) o
    = recording :: repeat recording (List.length levels)
        ++ [processing; processing; done] /\
  state (deliver (session levels (transcription_complete text)) o) = done /\
  shown (session levels (transcription_error reason)) o
    = recording :: repeat recording (List.length levels)
        ++ [processing; processing; error] /\
  state (deliver (session levels (transcription_error reason)) o) = error /\
  state (listen recording_started o) = recording /\
  state (listen recording_stopped o) = processing /\
  state (listen transcription_started o) = processing /\
  state (listen (transcription_complete text) o) = done /\
  state (listen (transcription_error reason) o) = error.
Proof.
  unfold session.
  repeat split; try reflexivity.
  - simpl shown. rewrite shown_app, shown_levels. reflexivity.
  - rewrite deliver_cons, deliver_app. reflexivity.
  - simpl shown. rewrite shown_app, shown_levels. reflexivity.
  - rewrite deliver_cons, deliver_app. reflexivity.
Qed.

Example rapid_changes_end_in_done :
  shown (session [0.5%R] (transcription_complete "Fast")) initial
  = [recording; recording; processing; processing; done].
Proof. reflexivity. Qed.

(** C6: on startup the overlay sends [is_model_ready] first, and it sends
    [download_whisper_model] exactly when that query is answered [false];
    answered [true] (or not answered) it sends no download command at all. *)
Theorem mount_downloads_iff_not_ready (reply : promise bool)
  (o : OverlayState) :
  hd_error (fst (mount reply o)) = Some is_model_ready /\
  (In download_whisper_model (fst (mount reply o))
   <-> reply = fulfilled false) /\
  mount (fulfilled false) o
    = ([is_model_ready; download_whisper_model], setModelReady false o) /\
  mount (fulfilled true) o = ([is_model_ready], setModelReady true o) /\
  (forall size, ~ In (download_model_size size) (fst (mount reply o))).
Proof.
  split; [| split; [| split; [| split]]].
  - destruct reply as [[|] | why]; reflexivity.
  - destruct reply as [[|] | why]; simpl; split; intro H;
      try discriminate; try reflexivity; auto.
    + destruct H as [H | []]. discriminate.
    + destruct H as [H | []]. discriminate.
  - reflexivity.
  - reflexivity.
  - intros size. destruct reply as [[|] | why]; simpl; intuition discriminate.
Qed.

(** *** The equalizer *)

Section Bars.

Local Open Scope R_scope.

Variable level : R.
Variables tick index : nat.

Lemma recording_bar_height :
  8 <= height (getBarStyle recording level tick index) <= 36.
Proof.
  simpl. split.
  - apply Rmax_l.
  - apply Rmax_lub; [lra | apply Rmin_l].
Qed.

Lemma processing_pulse :
  0 <= sin (INR tick / 15 + INR index * 0.3) * 0.5 + 0.5 <= 1.
Proof.
  pose proof (SIN_bound (INR tick / 15 + INR index * 0.3)) as Hsin. lra.
Qed.

Lemma processing_bar :
  6 <= height (getBarStyle processing level tick index) <= 10 /\
  0.5 <= opacity (getBarStyle processing level tick index) <= 0.8.
Proof.
  simpl. pose proof processing_pulse as Hpulse. lra.
Qed.

End Bars.

(** C8: for every audio level (any real number, also outside [0,1]), every
    animation tick and every bar index, the bar style of the recording state
    has its height within [8, 36] and opacity 0.85, and the bar style of the
    processing state has its height within [6, 10] and its opacity within
    [0.5, 0.8]. *)
Theorem getBarStyle_stays_in_range (level : R) (tick index : nat) :
  (8 <= height (getBarStyle recording level tick index) <= 36)%R /\
  opacity (getBarStyle recording level tick index) = 0.85%R /\
  (6 <= height (getBarStyle processing level tick index) <= 10)%R /\
  (0.5 <= opacity (getBarStyle processing level tick index) <= 0.8)%R.
Proof.
  split; [apply recording_bar_height |].
  split; [reflexivity |].
  apply processing_bar.
Qed.

(** The same bounds for the eighteen bars of a rendered frame. *)
Lemma StateVisualizer_bars_in_range (level : R) (tick : nat) :
  List.length (StateVisualizer recording level tick) = 18%nat /\
  Forall (fun bar => (8 <= height bar <= 36)%R /\ opacity bar = 0.85%R)
         (StateVisualizer recording level tick) /\
  Forall (fun bar => (6 <= height bar <= 10)%R
                     /\ (0.5 <= opacity bar <= 0.8)%R)
         (StateVisualizer processing level tick).
Proof.
  unfold StateVisualizer. split; [| split].
  - rewrite length_map, length_seq. reflexivity.
  - apply Forall_map, Forall_forall. intros index _.
    split; [apply recording_bar_height | reflexivity].
  - apply Forall_map, Forall_forall. intros index _. apply processing_bar.
Qed.

(** A loud level saturates the bar at 36 and a negative one at 8. *)
Example loud_level_is_capped :
  height (getBarStyle recording 1000 0 0) = 36%R.
Proof.
  cbv [getBarStyle height].
  generalize (SIN_bound (INR 0 / 8 + INR 0 * 0.7)).
  generalize (COS_bound (INR 0 / 12 + INR 0 * 1.1)).
  generalize (sin (INR 0 / 8 + INR 0 * 0.7)) as s.
  generalize (cos (INR 0 / 12 + INR 0 * 1.1)) as c.
  intros c s Hcos Hsin.
  rewrite Rmin_left by lra.
  apply Rmax_right. lra.
Qed.

(** *** Release of the hotkey *)

Lemma waiting_keeps_processing (later : list event) (o : OverlayState) :
  state o = processing ->
  forallb is_waiting later = true ->
  state (deliver later o) = processing.
Proof.
  revert o. induction later as [| e later IH]; intros o Hstate Hwait.
  - exact Hstate.
  - simpl in Hwait. apply andb_prop in Hwait as [He Hlater].
    rewrite deliver_cons. apply IH; [| exact Hlater].
    rewrite state_after_listen.
    destruct e; simpl in He; try discriminate; auto.
Qed.

Lemma release_resets_level (o : OverlayState) :
  listen recording_stopped o
  = mkOverlay processing (modelReady o) 0%R (downloadProgress o).
Proof. reflexivity. Qed.

(** C2, as stated, fails on a tap: after recording-started, one level and
    recording-stopped the overlay shows processing, not idle. *)
Lemma tap_enters_processing :
  shown (press_and_release [0.2%R]) initial
    = [recording; recording; processing] /\
  state (deliver (press_and_release [0.2%R]) initial) = processing /\
  state (deliver (press_and_release [0.2%R]) initial) <> idle /\
  In processing (shown (press_and_release []) initial).
Proof.
  repeat split; try reflexivity.
  - discriminate.
  - simpl. auto.
Qed.

(** C2, amended: the overlay has no minimum-duration threshold. For every
    recording, however few chunks it captured, the recording-stopped event
    that follows the release of the hotkey moves the overlay to processing
    with the level reset to 0, never to idle; and while only audio-level,
    download-progress, recording-stopped or transcription-started events
    follow (in particular when no transcription event follows at all) it
    keeps showing processing. *)
Theorem release_always_enters_processing (o : OverlayState)
  (levels : list R) (later : list event)
  (Hlater : forallb is_waiting later = true) :
  shown (press_and_release levels) o
    = recording :: repeat recording (List.length levels) ++ [processing] /\
  state (deliver (press_and_release levels) o) = processing /\
  audioLevel (deliver (press_and_release levels) o) = 0%R /\
  state (deliver later (deliver (press_and_release levels) o)) = processing /\
  ~ In idle (shown (press_and_release levels ++ later) o).
Proof.
  assert (Hstop : state (deliver (press_and_release levels) o) = processing).
  { unfold press_and_release. rewrite deliver_cons, deliver_app. reflexivity. }
  assert (Hshown : shown (press_and_release levels) o
          = recording :: repeat recording (List.length levels)
              ++ [processing]).
  { unfold press_and_release. simpl shown.
    rewrite shown_app, shown_levels. reflexivity. }
  split; [exact Hshown |].
  split; [exact Hstop |].
  split.
  { unfold press_and_release. rewrite deliver_cons, deliver_app. reflexivity. }
  split; [apply waiting_keeps_processing; assumption |].
  rewrite shown_app, Hshown. intro Hin.
  apply in_app_or in Hin as [Hin | Hin].
  - destruct Hin as [Hin | Hin]; [discriminate |].
    apply in_app_or in Hin as [Hin | Hin].
    + apply repeat_spec in Hin. discriminate.
    + destruct Hin as [Hin | []]. discriminate.
  - revert Hin Hstop Hlater.
    generalize (deliver (press_and_release levels) o) as o'.
    induction later as [| e later IH]; intros o' Hin Hstate Hwait.
    + destruct Hin.
    + simpl in Hwait. apply andb_prop in Hwait as [He Hrest].
      assert (Hnext : state (listen e o') = processing).
      { rewrite state_after_listen.
        destruct e; simpl in He; try discriminate; auto. }
      destruct Hin as [Hin | Hin].
      * rewrite Hnext in Hin. discriminate.
      * exact (IH (listen e o') Hin Hnext Hrest).
Qed.

Lemma release_always_enters_processing_witness :
  forallb is_waiting [audio_level 0%R; download_progress 1 2] = true /\
  state (deliver [audio_level 0%R; download_progress 1 2]
           (deliver (press_and_release [0.2%R]) initial)) = processing.
Proof.
  split; [reflexivity |].
  apply (release_always_enters_processing initial [0.2%R]
           [audio_level 0%R; download_progress 1 2]).
  reflexivity.
Defined.

(** *** After a result *)

Lemma step_state (i : input) (ui : OverlayState * nat) :
  state (fst (step i ui)) =
  match i with
  | Event e => state (listen e (fst ui))
  | AnimationFrame => state (fst ui)
  end.
Proof. destruct i; reflexivity. Qed.

Lemma step_never_enters_idle (i : input) (ui : OverlayState * nat) :
  state (fst ui) <> idle -> state (fst (step i ui)) <> idle.
Proof.
  intros Hbusy Hidle. rewrite step_state in Hidle.
  destruct i as [e |].
  - apply idle_is_never_entered in Hidle. tauto.
  - contradiction.
Qed.

(** C3, as stated, fails: from an overlay that shows done no step at all,
    event or animation frame, leads to idle. *)
Lemma done_is_never_reset :
  ~ (forall ui : OverlayState * nat,
        state (fst ui) = done \/ state (fst ui) = error ->
        exists i, state (fst (step i ui)) = idle).
Proof.
  intro Hreset.
  destruct (Hreset (mkOverlay done true 0%R None, 0%nat)) as [i Hidle].
  - left. reflexivity.
  - revert Hidle. apply step_never_enters_idle. discriminate.
Qed.

(** C3, amended: the overlay never resets done or error to idle; it sets no
    timer and no listener writes idle. An overlay that shows done or error
    keeps showing it through audio-level and download-progress events and
    through animation frames; the next recording-started event replaces it
    directly by recording, with the level at 0, without passing through
    idle; the other events set the state they name. *)
Theorem done_and_error_persist (ui : OverlayState * nat) (i : input)
  (Hresult : state (fst ui) = done \/ state (fst ui) = error) :
  state (fst (step i ui)) <> idle /\
  state (fst (step i ui)) =
    match i with
    | AnimationFrame
    | Event (download_progress _ _) | Event (audio_level _) => state (fst ui)
    | Event recording_started => recording
    | Event recording_stopped | Event transcription_started => processing
    | Event (transcription_complete _) => done
    | Event (transcription_error _) => error
    end /\
  fst (step (Event recording_started) ui)
    = mkOverlay recording (modelReady (fst ui)) 0%R
                (downloadProgress (fst ui)).
Proof.
  split; [| split].
  - apply step_never_enters_idle.
    destruct Hresult as [H | H]; rewrite H; discriminate.
  - rewrite step_state. destruct i as [e |]; [| reflexivity].
    rewrite state_after_listen. destruct e; reflexivity.
  - reflexivity.
Qed.

Lemma done_and_error_persist_witness :
  state (fst (step AnimationFrame (mkOverlay error true 0%R None, 7%nat)))
  <> idle.
Proof.
  apply (done_and_error_persist (mkOverlay error true 0%R None, 7%nat)
           AnimationFrame).
  right. reflexivity.
Defined.

(** *** Readiness *)

Lemma ready_after_listen (e : event) (o : OverlayState) :
  modelReady (listen e o) = modelReady o || is_terminal e.
Proof.
  destruct e as [d t | | l | | | text | reason]; simpl;
    try (rewrite orb_false_r; reflexivity).
  destruct (d >=? t)%Z; simpl.
  - rewrite orb_true_r. reflexivity.
  - rewrite orb_false_r. reflexivity.
Qed.

(** The flag is raised by the first terminal tick and never lowered. *)
Lemma ready_after_deliver (events : list event) (o : OverlayState) :
  modelReady (deliver events o) = modelReady o || existsb is_terminal events.
Proof.
  revert o. induction events as [| e events IH]; intro o.
  - simpl. rewrite orb_false_r. reflexivity.
  - rewrite deliver_cons, IH, ready_after_listen. simpl.
    rewrite orb_assoc. reflexivity.
Qed.

Lemma terminal_of_bounded_job (job : list (Z * Z)) :
  Forall (fun tick => (fst tick <= snd tick)%Z) job ->
  existsb is_terminal (job_events job)
  = existsb (fun tick => (fst tick =? snd tick)%Z) job.
Proof.
  induction 1 as [| [d t] job Hle _ IH]; simpl in *.
  - reflexivity.
  - rewrite IH. f_equal.
    destruct (Z.eqb_spec d t) as [Heq | Hne].
    + subst. apply Z.geb_le. lia.
    + destruct (d >=? t)%Z eqn:Hge; [| reflexivity].
      apply Z.geb_le in Hge. lia.
Qed.

End OverlayFacts.

(** ** Arithmetic of the progress bar *)

Module JsFacts.

Import Js.

Local Open Scope Q_scope.

(** [Math.round((a / b) * 100)] on integers with [b] not zero is the floor
    of [(200 a + b) / (2 b)]. *)
Lemma round_percentage (a b : Z) :
  b <> 0%Z ->
  Math_round (mul (div a b) (of_int 100))
  = of_int ((200 * a + b) / (2 * b))%Z.
Proof.
  intro Hb. unfold div.
  destruct (Z.eqb_spec b 0) as [Hz | _]; [contradiction |].
  unfold of_int at 1. simpl mul. unfold Math_round. f_equal.
  rewrite Zdiv_Qdiv. apply Qfloor_comp.
  rewrite !inject_Z_plus, !inject_Z_mult.
  assert (Hq : ~ inject_Z b == 0).
  { unfold Qeq. simpl. lia. }
  field. exact Hq.
Qed.

Example round_half_goes_up :
  Math_round (mul (div 1 200) (of_int 100)) = of_int 1.
Proof. reflexivity. Qed.

Example division_by_zero_is_not_a_number :
  Math_round (mul (div 0 0) (of_int 100)) = NaN /\
  Math_round (mul (div 5 0) (of_int 100)) = PosInfinity.
Proof. split; reflexivity. Qed.

End JsFacts.

(** ** Settings *)

Module SettingsFacts.

Import Tauri Settings Scenario.

Local Open Scope string_scope.

(** *** Choosing a model *)

Section ModelSelect.

Variable backend : command -> promise unit.
Variable s : SettingsState.
Variable size : string.

Lemma select_unknown :
  find (fun m => String.eqb (model_id m) size) (models s) = None ->
  handleModelSelect backend size s = mkRun s [] (returned tt).
Proof.
  unfold handleModelSelect, bind, read. simpl.
  intros ->. reflexivity.
Qed.

Lemma select_downloaded (model : ModelInfo) :
  find (fun m => String.eqb (model_id m) size) (models s) = Some model ->
  model_downloaded model = true ->
  handleModelSelect backend size s =
  match backend (set_model_size size) with
  | fulfilled _ =>
      mkRun (setSelectedModel size s) [set_model_size size] (returned tt)
  | rejected reason => mkRun s [set_model_size size] (threw reason)
  end.
Proof.
  unfold handleModelSelect, bind, read, await_invoke, update.
  simpl. intros -> ->. simpl.
  destruct (backend (set_model_size size)); reflexivity.
Qed.

Lemma select_missing (model : ModelInfo) :
  find (fun m => String.eqb (model_id m) size) (models s) = Some model ->
  model_downloaded model = false ->
  handleModelSelect backend size s =
  match backend (download_model_size size) with
  | fulfilled _ =>
      mkRun (setSelectedModel size (setDownloading (Some size) s))
            [download_model_size size] (returned tt)
  | rejected reason =>
      mkRun (setDownloading (Some size) s)
            [download_model_size size] (threw reason)
  end.
Proof.
  unfold handleModelSelect, bind, read, await_invoke, update.
  simpl. intros -> ->. simpl.
  destruct (backend (download_model_size size)); reflexivity.
Qed.

End ModelSelect.

(** C1, as stated, fails: with a back end that fulfils every command, a
    click on the model that is listed as not downloaded does not fail; it
    sends [download_model_size] and then shows the model as selected. *)
Lemma missing_model_click_downloads :
  In ("medium", "Medium (1.5GB)", false) (models two_models) /\
  onClick accepting ("medium", "Medium (1.5GB)", false) two_models
    = handleModelSelect accepting "medium" two_models /\
  result (handleModelSelect accepting "medium" two_models) = returned tt /\
  invoked (handleModelSelect accepting "medium" two_models)
    = [download_model_size "medium"] /\
  selectedModel (after (handleModelSelect accepting "medium" two_models))
    = "medium" /\
  downloading (after (handleModelSelect accepting "medium" two_models))
    = Some "medium".
Proof.
  split; [simpl; auto |].
  repeat split.
Qed.

(** C1, amended: a click on a model that the list shows as not downloaded
    never invokes [set_model_size]. The handler marks the model as
    downloading and invokes [download_model_size] for it, and nothing else
    (a click on its row does the same, unless the row is disabled because
    that download is already running, in which case nothing is sent); it
    raises no error of its own: it fails only when that command is rejected,
    with the reason of the rejection, and when the command is fulfilled it
    records the model as the selected one. *)
Theorem missing_model_is_downloaded_not_selected
  (backend : command -> promise unit) (s : SettingsState) (size : string)
  (model : ModelInfo)
  (Hlisted : find (fun m => String.eqb (model_id m) size) (models s)
             = Some model)
  (Hmissing : model_downloaded model = false) :
  invoked (handleModelSelect backend size s) = [download_model_size size] /\
  invoked (onClick backend model s)
    = (if disabled (model_row s model) then []
       else [download_model_size size]) /\
  (forall id, ~ In (set_model_size id)
                   (invoked (handleModelSelect backend size s))) /\
  downloading (after (handleModelSelect backend size s)) = Some size /\
  models (after (handleModelSelect backend size s)) = models s /\
  match backend (download_model_size size) with
  | fulfilled _ =>
      result (handleModelSelect backend size s) = returned tt /\
      selectedModel (after (handleModelSelect backend size s)) = size
  | rejected reason =>
      result (handleModelSelect backend size s) = threw reason /\
      selectedModel (after (handleModelSelect backend size s))
        = selectedModel s
  end.
Proof.
  assert (Hid : model_id model = size).
  { apply find_some in Hlisted as [_ Hid]. apply String.eqb_eq. exact Hid. }
  unfold onClick. rewrite Hid.
  rewrite (select_missing backend s size model Hlisted Hmissing).
  destruct (backend (download_model_size size)) as [[] | reason];
    destruct (disabled (model_row s model)); simpl;
    repeat split; intros; intuition discriminate.
Qed.

Lemma missing_model_is_downloaded_not_selected_witness :
  invoked (handleModelSelect accepting "medium" two_models)
  = [download_model_size "medium"].
Proof.
  apply (missing_model_is_downloaded_not_selected accepting two_models
           "medium" ("medium", "Medium (1.5GB)", false)).
  - reflexivity.
  - reflexivity.
Defined.

(** *** Choosing an input device *)

(** What the handler sends for the value of an option. *)
Lemma handleDeviceChange_run (backend : command -> promise unit)
  (s : SettingsState) (deviceName : string) :
  let device :=
    if String.eqb deviceName "default" then None else Some deviceName in
  handleDeviceChange backend deviceName s =
  match backend (set_audio_device device) with
  | fulfilled _ =>
      mkRun (setCurrentDevice device s) [set_audio_device device]
            (returned tt)
  | rejected reason => mkRun s [set_audio_device device] (threw reason)
  end.
Proof.
  unfold handleDeviceChange, bind, await_invoke, update. simpl.
  destruct (backend (set_audio_device _)); reflexivity.
Qed.

(** C7, as stated, fails for an input device whose name is "default": the
    selector offers it, and choosing it sends null, not the chosen name. *)
Lemma device_called_default_is_sent_as_null :
  In (Device "default") (selector device_called_default) /\
  invoked (onChange accepting (Device "default") device_called_default)
    = [set_audio_device None] /\
  invoked (onChange accepting (Device "default") device_called_default)
    <> [set_audio_device (Some "default")] /\
  currentDevice
    (after (onChange accepting (Device "default") device_called_default))
    = None.
Proof.
  repeat split.
  - simpl. auto.
  - discriminate.
Qed.

(** C7, amended: for every choice of the audio-device selector other than a
    device whose name is the string "default", committing the choice calls
    [set_audio_device] once, with null when "System Default" is chosen and
    with exactly the chosen device name otherwise; when the command is
    fulfilled the recorded current device equals the committed value, and
    when it is rejected the recorded device is left as it was. *)
Theorem device_choice_is_committed (backend : command -> promise unit)
  (s : SettingsState) (c : choice)
  (Hname : c <> Device "default") :
  invoked (onChange backend c s) = [set_audio_device (committed c)] /\
  match backend (set_audio_device (committed c)) with
  | fulfilled _ =>
      result (onChange backend c s) = returned tt /\
      currentDevice (after (onChange backend c s)) = committed c
  | rejected reason =>
      result (onChange backend c s) = threw reason /\
      currentDevice (after (onChange backend c s)) = currentDevice s
  end.
Proof.
  assert (Hdevice :
    (if String.eqb (option_value c) "default" then None
     else Some (option_value c)) = committed c).
  { destruct c as [| name]; simpl; [reflexivity |].
    destruct (String.eqb_spec name "default") as [Heq | Hne];
      [subst; contradiction | reflexivity]. }
  unfold onChange.
  pose proof (handleDeviceChange_run backend s (option_value c)) as Hrun.
  cbv zeta in Hrun. rewrite Hdevice in Hrun. rewrite Hrun.
  destruct (backend (set_audio_device (committed c))) as [[] | reason];
    simpl; auto.
Qed.

Lemma device_choice_is_committed_witness :
  invoked (onChange accepting (Device "USB Microphone") device_called_default)
  = [set_audio_device (Some "USB Microphone")].
Proof.
  apply (device_choice_is_committed accepting device_called_default
           (Device "USB Microphone")).
  discriminate.
Defined.

(** *** The catalog during a download *)

(** Which commands a click sends is decided by the listed catalog alone. *)
Lemma click_depends_on_catalog (backend : command -> promise unit)
  (s s' : SettingsState) (size : string) :
  models s' = models s ->
  invoked (handleModelSelect backend size s')
  = invoked (handleModelSelect backend size s).
Proof.
  intro Hsame.
  destruct (find (fun m => String.eqb (model_id m) size) (models s))
    as [model |] eqn:Hfind.
  - assert (Hfind' : find (fun m => String.eqb (model_id m) size) (models s')
                     = Some model) by (rewrite Hsame; exact Hfind).
    destruct (model_downloaded model) eqn:Hflag.
    + rewrite (select_downloaded backend s' size model Hfind' Hflag).
      rewrite (select_downloaded backend s size model Hfind Hflag).
      destruct (backend (set_model_size size)); reflexivity.
    + rewrite (select_missing backend s' size model Hfind' Hflag).
      rewrite (select_missing backend s size model Hfind Hflag).
      destruct (backend (download_model_size size)); reflexivity.
  - rewrite (select_unknown backend s size Hfind).
    rewrite (select_unknown backend s' size); [reflexivity |].
    rewrite Hsame. exact Hfind.
Qed.

Lemma progress_listener_run (s : SettingsState) (id : string) (d t : Z) :
  on_model_download_progress (id, d, t) s =
  if (d >=? t)%Z
  then ([get_available_models],
        mkSettings (devices s) (currentDevice s) (models s)
                   (selectedModel s) (micPermission s)
                   (accessibilityPermission s) None None)
  else ([],
        mkSettings (devices s) (currentDevice s) (models s)
                   (selectedModel s) (micPermission s)
                   (accessibilityPermission s) (downloading s)
                   (Some (mkProgress id d t))).
Proof.
  unfold on_model_download_progress.
  destruct (d >=? t)%Z; reflexivity.
Qed.

End SettingsFacts.

(** ** Download progress, on both surfaces *)

Module DownloadFacts.

Import Js Tauri Scenario.

Local Open Scope Z_scope.

Lemma act_keeps_catalog (a : Settings.action) (s : Settings.SettingsState) :
  (forall settled, a <> Settings.Reply (Settings.available_models settled)) ->
  Settings.models (Settings.act a s) = Settings.models s.
Proof.
  intro Hother.
  destruct a as [r | [[id d] t] | backend m | backend deviceName];
    cbn [Settings.act].
  - destruct r as [[v | e] | [v | e] | settled | [[v w] | e]
                   | [v | e] | [v | e]]; try reflexivity.
    exfalso. exact (Hother settled eq_refl).
  - rewrite SettingsFacts.progress_listener_run.
    destruct (d >=? t); reflexivity.
  - unfold Settings.onClick.
    destruct (Settings.disabled (Settings.model_row s m)); [reflexivity |].
    destruct (find (fun x => String.eqb (Settings.model_id x)
                                        (Settings.model_id m))
                   (Settings.models s)) as [model |] eqn:Hfind.
    + destruct (Settings.model_downloaded model) eqn:Hflag.
      * rewrite (SettingsFacts.select_downloaded backend s _ model
                   Hfind Hflag).
        destruct (backend _); reflexivity.
      * rewrite (SettingsFacts.select_missing backend s _ model
                   Hfind Hflag).
        destruct (backend _); reflexivity.
    + rewrite (SettingsFacts.select_unknown backend s _ Hfind). reflexivity.
  - pose proof (SettingsFacts.handleDeviceChange_run backend s deviceName)
      as Hrun.
    cbv zeta in Hrun. rewrite Hrun.
    destruct (backend _); reflexivity.
Qed.

(** C4, as stated, fails: the flag is raised by a tick whose downloaded
    count is not equal to its total, such as 1024 bytes of a total reported
    as 0, or 600 of 500. *)
Lemma ready_without_equality :
  Overlay.modelReady
    (Overlay.listen (Overlay.download_progress 1024 0) Overlay.initial)
  = true /\
  1024 <> 0 /\
  Overlay.modelReady
    (Overlay.deliver (job_events [(0, 500); (600, 500)]) Overlay.initial)
  = true /\
  ~ Exists (fun tick : Z * Z => fst tick = snd tick) [(0, 500); (600, 500)].
Proof.
  repeat split; try discriminate.
  intro H. inversion H as [tick l Heq | tick l Hrest]; subst.
  - discriminate.
  - inversion Hrest as [tick' l' Heq | tick' l' Hrest']; subst.
    + discriminate.
    + inversion Hrest'.
Qed.

(** C4, amended: in an overlay whose model is not ready, the model-ready
    flag is still false after any number of ticks with downloaded below
    total and is true from the first tick with downloaded at or above its
    total on (for a job that never exceeds its total, the tick with
    downloaded equal to total). In the settings panel a tick below its total
    sends nothing and leaves the listed catalog, hence what a click on any
    model does, unchanged; a tick at or above its total asks the back end for
    the catalog again. The catalog changes only when a reply to that query
    arrives: a fulfilled reply replaces it by the replied list, after which a
    click on a model that the reply lists as downloaded sends
    [set_model_size]; a rejected reply leaves it as it was. *)
Theorem readiness_follows_final_tick (o : Overlay.OverlayState)
  (ticks : list (Z * Z)) (n : nat) (s : Settings.SettingsState)
  (backend : command -> promise unit) (size id reason : string) (d t : Z)
  (listed : list Settings.ModelInfo) (model : Settings.ModelInfo)
  (a : Settings.action)
  (Hfresh : Overlay.modelReady o = false) :
  Overlay.modelReady (Overlay.deliver (job_events (firstn n ticks)) o)
    = existsb (fun tick => snd tick <=? fst tick) (firstn n ticks) /\
  (Overlay.modelReady (Overlay.deliver (job_events ticks) o) = true
   <-> Exists (fun tick => snd tick <= fst tick) ticks) /\
  (Forall (fun tick => fst tick <= snd tick) ticks ->
   (Overlay.modelReady (Overlay.deliver (job_events ticks) o) = true
    <-> Exists (fun tick => fst tick = snd tick) ticks)) /\
  (d < t ->
   fst (Settings.on_model_download_progress (size, d, t) s) = [] /\
   Settings.models (snd (Settings.on_model_download_progress (size, d, t) s))
     = Settings.models s /\
   Settings.invoked
     (Settings.handleModelSelect backend id
        (snd (Settings.on_model_download_progress (size, d, t) s)))
   = Settings.invoked (Settings.handleModelSelect backend id s)) /\
  (t <= d ->
   fst (Settings.on_model_download_progress (size, d, t) s)
     = [get_available_models] /\
   Settings.models
     (Settings.on_available_models (fulfilled listed)
        (snd (Settings.on_model_download_progress (size, d, t) s)))
     = listed /\
   Settings.models
     (Settings.on_available_models (rejected reason)
        (snd (Settings.on_model_download_progress (size, d, t) s)))
     = Settings.models s /\
   (find (fun m => String.eqb (Settings.model_id m) id) listed = Some model ->
    Settings.model_downloaded model = true ->
    Settings.invoked
      (Settings.handleModelSelect backend id
         (Settings.on_available_models (fulfilled listed)
            (snd (Settings.on_model_download_progress (size, d, t) s))))
    = [set_model_size id])) /\
  ((forall settled,
       a <> Settings.Reply (Settings.available_models settled)) ->
   Settings.models (Settings.act a s) = Settings.models s).
Proof.
  assert (Hflag : forall l,
            Overlay.modelReady (Overlay.deliver (job_events l) o)
            = existsb (fun tick => snd tick <=? fst tick) l).
  { intro l. rewrite OverlayFacts.ready_after_deliver, Hfresh. simpl.
    induction l as [| [d0 t0] l IH]; simpl; [reflexivity |].
    rewrite IH. f_equal. apply Z.geb_leb. }
  split; [apply Hflag |].
  split.
  { rewrite Hflag, existsb_exists, Exists_exists.
    split; intros [tick [Hin Hle]]; exists tick; split; auto;
      apply Z.leb_le; exact Hle. }
  split.
  { intro Hjob.
    rewrite OverlayFacts.ready_after_deliver, Hfresh. simpl.
    rewrite (OverlayFacts.terminal_of_bounded_job ticks Hjob).
    rewrite existsb_exists, Exists_exists.
    split; intros [tick [Hin Heq]]; exists tick; split; auto;
      apply Z.eqb_eq; exact Heq. }
  split.
  { intro Hlt. rewrite SettingsFacts.progress_listener_run.
    assert (Hge : (d >=? t) = false).
    { destruct (d >=? t) eqn:H; [| reflexivity].
      apply Z.geb_le in H. lia. }
    rewrite Hge. cbn [fst snd].
    split; [reflexivity |]. split; [reflexivity |].
    apply SettingsFacts.click_depends_on_catalog. reflexivity. }
  split; [| apply act_keeps_catalog].
  intro Hle. rewrite SettingsFacts.progress_listener_run.
  assert (Hge : (d >=? t) = true) by (apply Z.geb_le; exact Hle).
  rewrite Hge. cbn [fst snd].
  split; [reflexivity |]. split; [reflexivity |]. split; [reflexivity |].
  intros Hfind Hdownloaded.
  rewrite (SettingsFacts.select_downloaded backend _ id model);
    [| exact Hfind | exact Hdownloaded].
  destruct (backend (set_model_size id)); reflexivity.
Qed.

Lemma readiness_follows_final_tick_witness :
  Overlay.modelReady
    (Overlay.deliver (job_events (firstn 2 [(0, 500); (250, 500); (500, 500)]))
       Overlay.initial) = false /\
  Overlay.modelReady
    (Overlay.deliver (job_events (firstn 3 [(0, 500); (250, 500); (500, 500)]))
       Overlay.initial) = true.
Proof.
  split.
  - exact (proj1 (readiness_follows_final_tick Overlay.initial
                    [(0, 500); (250, 500); (500, 500)] 2 two_models
                    accepting "medium" "medium" "offline" 500 500
                    [("medium", "Medium (1.5GB)", true)]%string
                    ("medium", "Medium (1.5GB)", true)%string
                    (Settings.Progress ("medium"%string, 500, 500))
                    eq_refl)).
  - exact (proj1 (readiness_follows_final_tick Overlay.initial
                    [(0, 500); (250, 500); (500, 500)] 3 two_models
                    accepting "medium" "medium" "offline" 500 500
                    [("medium", "Medium (1.5GB)", true)]%string
                    ("medium", "Medium (1.5GB)", true)%string
                    (Settings.Progress ("medium"%string, 500, 500))
                    eq_refl)).
Defined.

(** *** The percentage *)

Lemma overlay_percent (d t : Z) :
  Overlay.percent (d, t)
  = if t =? 0 then of_int 0 else of_int ((200 * d + t) / (2 * t)).
Proof.
  unfold Overlay.percent.
  destruct (Z.eqb_spec t 0) as [Hz | Hnz]; [reflexivity |].
  apply JsFacts.round_percentage. exact Hnz.
Qed.

(** The progress cell of a row, from the stored progress. *)
Lemma row_progress (s : Settings.SettingsState) (m : Settings.ModelInfo) :
  Settings.progress (Settings.model_row s m) =
  match Settings.downloadProgress s with
  | Some p =>
      if String.eqb (Settings.size p) (Settings.model_id m)
      then Math_round (mul (div (Settings.downloaded p) (Settings.total p))
                           (of_int 100))
      else of_int 0
  | None => of_int 0
  end.
Proof. destruct m as [[id label] flag]. reflexivity. Qed.

(** Without the guard of the overlay, a stored total of 0 would show. *)
Example unguarded_row_progress :
  Settings.progress
    (Settings.model_row
       (Settings.setDownloadProgress
          (Some (Settings.mkProgress "small" (-1) 0)) Settings.initial)
       ("small"%string, "Small"%string, false))
  = NegInfinity.
Proof. reflexivity. Qed.


(** What the overlay draws after a tick, while the model is not ready: the
    bar with the percentage below the total, and no bar from the total on. *)
Lemma render_after_tick (o : Overlay.OverlayState) (d t : Z) (tick : nat) :
  Overlay.modelReady o = false ->
  Overlay.state o = Overlay.idle ->
  Overlay.render (Overlay.listen (Overlay.download_progress d t) o) tick
  = if d >=? t then Overlay.Empty
    else Overlay.ProgressBar (Overlay.percent (d, t)).
Proof.
  intros Hready Hidle. unfold Overlay.render. simpl.
  destruct (d >=? t); simpl.
  - rewrite Hidle. reflexivity.
  - rewrite Hready. reflexivity.
Qed.

Example half_way_bar :
  Overlay.render
    (Overlay.listen (Overlay.download_progress 50 100) Overlay.initial) 0
  = Overlay.ProgressBar (of_int 50).
Proof. reflexivity. Qed.

End DownloadFacts.

(** ** Runs of the overlay *)

Module OverlayRuns.

Import Js Tauri Overlay Scenario.

Lemma named_state_spec (e : event) (o : OverlayState) :
  state (listen e o)
  = match named_state e with Some st => st | None => state o end.
Proof. rewrite OverlayFacts.state_after_listen. destruct e; reflexivity. Qed.

Lemma named_state_is_busy (e : event) : named_state e <> Some idle.
Proof. destruct e; discriminate. Qed.

Lemma last_named_is_busy (events : list event) :
  last_named events <> Some idle.
Proof.
  induction events as [| e events IH]; simpl; [discriminate |].
  destruct (last_named events) as [st |]; [exact IH |].
  apply named_state_is_busy.
Qed.

(** X1: the state shown after a run of events is the one named by the last
    event that names a state, whatever was shown before; when no event of the
    run names one, the state is unchanged. So the overlay shows idle after a
    run exactly when it showed idle before it and no state-naming event
    arrived. *)
Theorem state_is_last_named (events : list event) (o : OverlayState) :
  state (deliver events o)
    = match last_named events with Some st => st | None => state o end /\
  (state (deliver events o) = idle
   <-> state o = idle /\ last_named events = None).
Proof.
  assert (Hlast : forall evs o',
            state (deliver evs o')
            = match last_named evs with Some st => st | None => state o' end).
  { induction evs as [| e evs IH]; intro o'; [reflexivity |].
    rewrite OverlayFacts.deliver_cons, IH. simpl.
    destruct (last_named evs); [reflexivity | apply named_state_spec]. }
  split; [apply Hlast |].
  rewrite Hlast. pose proof (last_named_is_busy events) as Hbusy.
  destruct (last_named events) as [st |].
  - split.
    + intros ->. contradiction.
    + intros [_ H]. discriminate.
  - tauto.
Qed.

(** *** Two independent halves *)

Lemma recording_half (events : list event) (o o' : OverlayState) :
  state o = state o' -> audioLevel o = audioLevel o' ->
  state (deliver events o)
    = state (deliver (filter is_recording_event events) o') /\
  audioLevel (deliver events o)
    = audioLevel (deliver (filter is_recording_event events) o').
Proof.
  revert o o'. induction events as [| e events IH]; intros o o' Hst Hlv.
  - split; assumption.
  - rewrite OverlayFacts.deliver_cons.
    destruct e as [d t | | l | | | text | reason];
      cbn [filter is_recording_event is_progress negb];
      try rewrite OverlayFacts.deliver_cons;
      apply IH; simpl; try reflexivity; try assumption.
    + destruct (d >=? t)%Z; assumption.
    + destruct (d >=? t)%Z; assumption.
Qed.

Lemma download_half (events : list event) (o o' : OverlayState) :
  modelReady o = modelReady o' -> downloadProgress o = downloadProgress o' ->
  modelReady (deliver events o)
    = modelReady (deliver (filter is_progress events) o') /\
  downloadProgress (deliver events o)
    = downloadProgress (deliver (filter is_progress events) o').
Proof.
  revert o o'. induction events as [| e events IH]; intros o o' Hrd Hpr.
  - split; assumption.
  - rewrite OverlayFacts.deliver_cons.
    destruct e as [d t | | l | | | text | reason];
      cbn [filter is_progress];
      try rewrite OverlayFacts.deliver_cons;
      apply IH; simpl; try assumption.
    + destruct (d >=? t)%Z; simpl; [reflexivity | assumption].
    + destruct (d >=? t)%Z; reflexivity.
Qed.

(** X2: downloads and recordings do not interfere in the overlay. After any
    interleaving of events, the recording state and the audio level are what
    the recording events alone would have produced, and the model-ready flag
    and the stored progress are what the download-progress events alone
    would have produced. *)
Theorem downloads_and_recordings_are_independent (events : list event)
  (o : OverlayState) :
  state (deliver events o)
    = state (deliver (filter is_recording_event events) o) /\
  audioLevel (deliver events o)
    = audioLevel (deliver (filter is_recording_event events) o) /\
  modelReady (deliver events o)
    = modelReady (deliver (filter is_progress events) o) /\
  downloadProgress (deliver events o)
    = downloadProgress (deliver (filter is_progress events) o).
Proof.
  destruct (recording_half events o o eq_refl eq_refl) as [H1 H2].
  destruct (download_half events o o eq_refl eq_refl) as [H3 H4].
  repeat split; assumption.
Qed.

(** *** What is drawn *)

Lemma no_progress_among_recording_events (events : list event) :
  forallb is_recording_event events = true ->
  filter is_progress events = [].
Proof.
  induction events as [| e events IH]; simpl; [reflexivity |].
  intro H. apply andb_prop in H as [He Hrest].
  unfold is_recording_event in He.
  destruct (is_progress e); [discriminate | auto].
Qed.

(** X3: while the model is not ready and a progress tick is stored, the
    overlay draws the progress bar and nothing else: no recording event
    (start, level, stop, transcription result) brings up the visualizer, and
    the bar keeps the width of the stored tick. *)
Theorem progress_bar_hides_recording (events : list event)
  (o : OverlayState) (stored : Z * Z) (tick : nat)
  (Hready : modelReady o = false)
  (Hstored : downloadProgress o = Some stored)
  (Hevents : forallb is_recording_event events = true) :
  render (deliver events o) tick = ProgressBar (percent stored).
Proof.
  destruct (download_half events o o eq_refl eq_refl) as [Hrd Hpr].
  rewrite (no_progress_among_recording_events events Hevents) in Hrd, Hpr.
  simpl in Hrd, Hpr. unfold render.
  rewrite Hrd, Hpr, Hready, Hstored. reflexivity.
Qed.

Lemma progress_bar_hides_recording_witness :
  render (deliver [recording_started; audio_level 1%R]
            (mkOverlay idle false 0%R (Some (250, 500)%Z))) 3
  = ProgressBar (of_int 50).
Proof.
  exact (progress_bar_hides_recording [recording_started; audio_level 1%R]
           (mkOverlay idle false 0%R (Some (250, 500)%Z)) (250, 500)%Z 3
           eq_refl eq_refl eq_refl).
Defined.

(** X4: no event lowers the model-ready flag. Once the model is ready it
    stays ready through every run of events, and the progress bar is never
    drawn again, whatever progress ticks arrive. *)
Theorem ready_is_permanent (events : list event) (o : OverlayState)
  (tick : nat)
  (Hready : modelReady o = true) :
  modelReady (deliver events o) = true /\
  forall width, render (deliver events o) tick <> ProgressBar width.
Proof.
  assert (Hstill : modelReady (deliver events o) = true).
  { rewrite OverlayFacts.ready_after_deliver, Hready. reflexivity. }
  split; [exact Hstill |].
  intro width. unfold render. rewrite Hstill.
  destruct (RecordingState_eqb (state (deliver events o)) idle);
    discriminate.
Qed.

Lemma ready_is_permanent_witness :
  modelReady
    (deliver [download_progress 10 500; recording_started]
       (mkOverlay idle true 0%R None)) = true.
Proof.
  apply (ready_is_permanent [download_progress 10 500; recording_started]
           (mkOverlay idle true 0%R None) 0).
  reflexivity.
Defined.

(** *** The width of the bar *)

Local Open Scope Z_scope.

Lemma percent_of_partial (d t : Z) :
  0 <= d -> d < t ->
  percent (d, t) = of_int ((200 * d + t) / (2 * t)) /\
  0 <= (200 * d + t) / (2 * t) <= 100.
Proof.
  intros Hd Hlt. split.
  - rewrite DownloadFacts.overlay_percent.
    destruct (Z.eqb_spec t 0) as [Hz | _]; [lia | reflexivity].
  - split.
    + apply Z.div_pos; lia.
    + apply Z.lt_succ_r. apply Z.div_lt_upper_bound; lia.
Qed.

Lemma listen_keeps_partial (e : event) (o : OverlayState) :
  counts_bytes e = true -> stored_is_partial o ->
  stored_is_partial (listen e o).
Proof.
  unfold stored_is_partial.
  destruct e as [d t | | l | | | text | reason]; simpl; auto.
  intros Hd _. apply Z.leb_le in Hd.
  destruct (d >=? t) eqn:Hge; simpl; [exact I |].
  split; [exact Hd |].
  destruct (Z.lt_ge_cases d t) as [H | H]; [exact H |].
  apply Z.geb_le in H. congruence.
Qed.

Lemma deliver_keeps_partial (events : list event) (o : OverlayState) :
  forallb counts_bytes events = true -> stored_is_partial o ->
  stored_is_partial (deliver events o).
Proof.
  revert o. induction events as [| e events IH]; intros o Hall Hinv.
  - exact Hinv.
  - simpl in Hall. apply andb_prop in Hall as [He Hrest].
    rewrite OverlayFacts.deliver_cons. apply IH; [exact Hrest |].
    apply listen_keeps_partial; assumption.
Qed.

(** X5: from the initial overlay, through every run of events whose byte
    counts are not negative, whenever the progress bar is drawn a tick below
    its total is stored (so the total is positive and nothing is divided by
    zero) and the width of the bar is a whole percentage between 0 and
    100. *)
Theorem progress_bar_width_in_range (events : list event) (tick : nat)
  (width : number)
  (Hcounts : forallb counts_bytes events = true)
  (Hdrawn : render (deliver events initial) tick = ProgressBar width) :
  exists d t n : Z,
    downloadProgress (deliver events initial) = Some (d, t) /\
    0 <= d < t /\
    width = of_int n /\ 0 <= n <= 100.
Proof.
  pose proof (deliver_keeps_partial events initial Hcounts I) as Hinv.
  unfold stored_is_partial in Hinv. unfold render in Hdrawn.
  destruct (downloadProgress (deliver events initial)) as [[d t] |].
  - destruct (modelReady (deliver events initial)).
    + destruct (RecordingState_eqb _ idle); discriminate.
    + injection Hdrawn as Hwidth.
      destruct (percent_of_partial d t) as [Hpercent Hrange]; [lia | lia |].
      exists d, t, ((200 * d + t) / (2 * t)).
      split; [reflexivity |]. split; [exact Hinv |].
      split; [| exact Hrange].
      rewrite <- Hwidth. exact Hpercent.
  - destruct (modelReady (deliver events initial));
      destruct (RecordingState_eqb _ idle); discriminate.
Qed.

Lemma progress_bar_width_in_range_witness :
  exists d t n : Z,
    downloadProgress
      (deliver [download_progress 25 100; recording_started] initial)
    = Some (d, t) /\
    0 <= d < t /\ of_int 25 = of_int n /\ 0 <= n <= 100.
Proof.
  exact (progress_bar_width_in_range
           [download_progress 25 100; recording_started] 0%nat (of_int 25)
           eq_refl eq_refl).
Defined.

(** X6: for a positive total the percentage never moves backwards when the
    downloaded count grows; it is 0 at nothing downloaded and 100 at the
    total. *)
Theorem percent_is_monotone (d1 d2 t : Z)
  (Htotal : 0 < t)
  (Hgrows : d1 <= d2) :
  percent (0, t) = of_int 0 /\
  percent (t, t) = of_int 100 /\
  exists n1 n2 : Z,
    percent (d1, t) = of_int n1 /\ percent (d2, t) = of_int n2 /\ n1 <= n2.
Proof.
  assert (Hform : forall d, percent (d, t)
                            = of_int ((200 * d + t) / (2 * t))).
  { intro d. rewrite DownloadFacts.overlay_percent.
    destruct (Z.eqb_spec t 0) as [Hz | _]; [lia | reflexivity]. }
  split; [| split].
  - rewrite Hform. f_equal. apply Z.div_small. lia.
  - rewrite Hform. f_equal.
    replace (200 * t + t) with (t + 100 * (2 * t)) by lia.
    rewrite Z.div_add by lia. rewrite Z.div_small by lia. reflexivity.
  - exists ((200 * d1 + t) / (2 * t)), ((200 * d2 + t) / (2 * t)).
    split; [apply Hform |]. split; [apply Hform |].
    apply Z.div_le_mono; lia.
Qed.

Lemma percent_is_monotone_witness :
  exists n1 n2 : Z,
    percent (250, 1000) = of_int n1 /\ percent (750, 1000) = of_int n2
    /\ n1 <= n2.
Proof.
  apply (percent_is_monotone 250 750 1000); lia.
Defined.

(** *** The equalizer and the level *)

Local Open Scope R_scope.

(** The factor the level is multiplied with, before the 28 pixels. *)
Lemma wave_factor_bounds (tick index : nat) :
  0.45 <= 0.3 + (sin (INR tick / 8 + INR index * 0.7) * 0.4
                 + cos (INR tick / 12 + INR index * 1.1) * 0.3) * 0.5 + 0.5
       <= 1.15.
Proof.
  pose proof (SIN_bound (INR tick / 8 + INR index * 0.7)) as Hsin.
  pose proof (COS_bound (INR tick / 12 + INR index * 1.1)) as Hcos.
  lra.
Qed.

Lemma clamp_of_scaled (k quiet loud : R) :
  0.45 <= k -> quiet <= loud ->
  Rmax 8 (Rmin 36 (8 + quiet * k * 28))
    <= Rmax 8 (Rmin 36 (8 + loud * k * 28)) /\
  (quiet <= 0 -> Rmax 8 (Rmin 36 (8 + quiet * k * 28)) = 8) /\
  (20 / 9 <= loud -> Rmax 8 (Rmin 36 (8 + loud * k * 28)) = 36).
Proof.
  intros Hk Hle. unfold Rmax, Rmin.
  repeat split; intros; repeat destruct Rle_dec; nra.
Qed.

(** X7: in the recording state a louder level never gives a shorter bar, at
    any tick and for any bar; a level of 0 or below gives the minimum height
    of 8 and a level of 20/9 or above gives the maximum height of 36. *)
Theorem bar_height_follows_level (quiet loud : R) (tick index : nat)
  (Hle : quiet <= loud) :
  height (getBarStyle recording quiet tick index)
    <= height (getBarStyle recording loud tick index) /\
  (quiet <= 0 -> height (getBarStyle recording quiet tick index) = 8) /\
  (20 / 9 <= loud -> height (getBarStyle recording loud tick index) = 36).
Proof.
  cbv [getBarStyle height].
  apply clamp_of_scaled; [| exact Hle].
  apply wave_factor_bounds.
Qed.

Lemma bar_height_follows_level_witness :
  height (getBarStyle recording 0.2 40 5)
  <= height (getBarStyle recording 0.8 40 5).
Proof.
  apply (bar_height_follows_level 0.2 0.8 40 5). lra.
Defined.

End OverlayRuns.


(** ** Runs of the settings panel *)

Module SettingsRuns.

Import Js Tauri Settings Scenario.

Local Open Scope string_scope.

(** *** Replies of the mount queries *)

Lemma replies_commute (r1 r2 : reply) (s : SettingsState) :
  answers r1 <> answers r2 ->
  on_reply r1 (on_reply r2 s) = on_reply r2 (on_reply r1 s).
Proof.
  destruct r1 as [[v1 | e1] | [v1 | e1] | [v1 | e1] | [[v1 w1] | e1]
                  | [v1 | e1] | [v1 | e1]];
    destruct r2 as [[v2 | e2] | [v2 | e2] | [v2 | e2] | [[v2 w2] | e2]
                    | [v2 | e2] | [v2 | e2]];
    intro Hdiff; try reflexivity; exfalso; apply Hdiff; reflexivity.
Qed.

Lemma perform_cons (a : action) (rest : list action) (s : SettingsState) :
  perform (a :: rest) s = perform rest (act a s).
Proof. reflexivity. Qed.

(** X8: the replies to the queries of the mount effect may arrive in any
    order: as long as each query is answered at most once, the panel ends in
    the same state for every order of arrival. *)
Theorem replies_in_any_order (arrived arrived' : list reply)
  (s : SettingsState)
  (Hsame : Permutation arrived arrived')
  (Honce : NoDup (map answers arrived)) :
  perform (map Reply arrived) s = perform (map Reply arrived') s.
Proof.
  revert s Honce.
  induction Hsame as [| r l l' Hperm IH | r1 r2 l | l l' l'' H1 IH1 H2 IH2];
    intros s Honce.
  - reflexivity.
  - simpl map. rewrite !perform_cons. apply IH.
    simpl in Honce. apply NoDup_cons_iff in Honce. tauto.
  - simpl map. rewrite !perform_cons. cbn [act].
    rewrite replies_commute; [reflexivity |].
    simpl in Honce. apply NoDup_cons_iff in Honce as [Hnotin _].
    intro Heq. apply Hnotin. left. congruence.
  - rewrite IH1 by exact Honce. apply IH2.
    apply (Permutation_NoDup (l := map answers l)); [| exact Honce].
    apply Permutation_map. exact H1.
Qed.

Lemma replies_in_any_order_witness :
  perform
    (map Reply [model_info (fulfilled ("medium", true));
                microphone_permission (fulfilled false)]) initial
  = perform
      (map Reply [microphone_permission (fulfilled false);
                  model_info (fulfilled ("medium", true))]) initial.
Proof.
  apply replies_in_any_order.
  - apply perm_swap.
  - simpl. constructor.
    + intros [H | []]. discriminate.
    + constructor; [intros [] | constructor].
Defined.

(** *** The audio input *)

(** X9: the audio-input control shows what was chosen. After a change that
    the back end accepts, the value of the [<select>] is the chosen option
    value, for every option value (also "default", which is stored as null);
    after a change that the back end rejects, the panel is left exactly as it
    was. *)
Theorem select_shows_the_accepted_choice
  (backend : command -> promise unit) (s : SettingsState)
  (deviceName : string) :
  invoked (handleDeviceChange backend deviceName s)
    = [set_audio_device
         (if String.eqb deviceName "default" then None else Some deviceName)]
  /\
  match backend (set_audio_device
                   (if String.eqb deviceName "default" then None
                    else Some deviceName)) with
  | fulfilled _ =>
      select_value (after (handleDeviceChange backend deviceName s))
      = deviceName
  | rejected reason =>
      after (handleDeviceChange backend deviceName s) = s /\
      result (handleDeviceChange backend deviceName s) = threw reason
  end.
Proof.
  pose proof (SettingsFacts.handleDeviceChange_run backend s deviceName)
    as Hrun.
  cbv zeta in Hrun. rewrite Hrun.
  destruct (backend (set_audio_device _)) as [[] | reason]; simpl;
    [| auto].
  split; [reflexivity |].
  unfold select_value. simpl.
  destruct (String.eqb_spec deviceName "default") as [Heq | Hne];
    [symmetry; exact Heq | reflexivity].
Qed.

(** *** The model list *)

Lemma found_has_id (s : SettingsState) (size : string) (model : ModelInfo) :
  find (fun m => String.eqb (model_id m) size) (models s) = Some model ->
  model_id model = size.
Proof.
  intro Hfind. apply find_some in Hfind as [_ Hid].
  apply String.eqb_eq. exact Hid.
Qed.

Lemma row_of (s : SettingsState) (m : ModelInfo) :
  isSelected (model_row s m) = String.eqb (selectedModel s) (model_id m) /\
  isDownloading (model_row s m)
    = match downloading s with
      | Some d => String.eqb d (model_id m)
      | None => false
      end /\
  disabled (model_row s m) = isDownloading (model_row s m) /\
  downloadBadge (model_row s m)
    = negb (model_downloaded m) && negb (isDownloading (model_row s m)).
Proof. destruct m as [[id label] flag]. repeat split. Qed.

(** X10: selecting a model that the list shows as downloaded sends
    [set_model_size] for it and no download command, and leaves the
    downloading mark alone; when the command is fulfilled the model becomes
    the selected one and its row is drawn as selected; when it is rejected
    the handler fails with the reason of the rejection and the panel is left
    exactly as it was. *)
Theorem downloaded_model_is_selected (backend : command -> promise unit)
  (s : SettingsState) (size : string) (model : ModelInfo)
  (Hlisted : find (fun m => String.eqb (model_id m) size) (models s)
             = Some model)
  (Hdownloaded : model_downloaded model = true) :
  invoked (handleModelSelect backend size s) = [set_model_size size] /\
  (forall id, ~ In (download_model_size id)
                   (invoked (handleModelSelect backend size s))) /\
  downloading (after (handleModelSelect backend size s)) = downloading s /\
  match backend (set_model_size size) with
  | fulfilled _ =>
      result (handleModelSelect backend size s) = returned tt /\
      selectedModel (after (handleModelSelect backend size s)) = size /\
      isSelected (model_row (after (handleModelSelect backend size s)) model)
      = true
  | rejected reason =>
      result (handleModelSelect backend size s) = threw reason /\
      after (handleModelSelect backend size s) = s
  end.
Proof.
  pose proof (found_has_id s size model Hlisted) as Hid.
  rewrite (SettingsFacts.select_downloaded backend s size model
             Hlisted Hdownloaded).
  destruct (backend (set_model_size size)) as [[] | reason]; simpl.
  - repeat split; try (intros; intuition discriminate).
    destruct (row_of (setSelectedModel size s) model) as [Hsel _].
    rewrite Hsel, Hid. simpl. apply String.eqb_refl.
  - repeat split; intros; intuition discriminate.
Qed.

Lemma downloaded_model_is_selected_witness :
  invoked (handleModelSelect accepting "small" two_models)
  = [set_model_size "small"].
Proof.
  apply (downloaded_model_is_selected accepting two_models "small"
           ("small", "Small (500MB)", true)).
  - reflexivity.
  - reflexivity.
Defined.

(** X11: selecting an id that the listed catalog does not hold (in
    particular while the catalog is still empty) does nothing: no command is
    sent, the panel is unchanged and the handler returns normally. *)
Theorem unknown_model_is_ignored (backend : command -> promise unit)
  (s : SettingsState) (size : string)
  (Hunknown : forall m, In m (models s) -> model_id m <> size) :
  handleModelSelect backend size s = mkRun s [] (returned tt).
Proof.
  apply SettingsFacts.select_unknown.
  destruct (find (fun m => String.eqb (model_id m) size) (models s))
    as [model |] eqn:Hfind; [| reflexivity].
  apply find_some in Hfind as [Hin Hid].
  apply String.eqb_eq in Hid. exfalso. exact (Hunknown model Hin Hid).
Qed.

Lemma unknown_model_is_ignored_witness :
  handleModelSelect accepting "large" two_models
  = mkRun two_models [] (returned tt).
Proof.
  apply unknown_model_is_ignored.
  intros m [Hm | [Hm | []]]; subst m; discriminate.
Defined.

(** The atomic handler is the split one with nothing in between. *)
Lemma handleModelSelect_split (backend : command -> promise unit)
  (size : string) (s : SettingsState) :
  after (handleModelSelect backend size s)
  = match snd (handleModelSelect_until_await size s) with
    | Some sent =>
        handleModelSelect_after_await size (backend sent)
          (fst (handleModelSelect_until_await size s))
    | None => s
    end /\
  invoked (handleModelSelect backend size s)
  = match snd (handleModelSelect_until_await size s) with
    | Some sent => [sent]
    | None => []
    end.
Proof.
  unfold handleModelSelect_until_await.
  destruct (find (fun m => String.eqb (model_id m) size) (models s))
    as [model |] eqn:Hfind.
  - destruct (model_downloaded model) eqn:Hflag.
    + rewrite (SettingsFacts.select_downloaded backend s size model
                 Hfind Hflag).
      cbn [fst snd].
      destruct (backend (set_model_size size)); split; reflexivity.
    + rewrite (SettingsFacts.select_missing backend s size model
                 Hfind Hflag).
      cbn [fst snd].
      destruct (backend (download_model_size size)); split; reflexivity.
  - rewrite (SettingsFacts.select_unknown backend s size Hfind).
    split; reflexivity.
Qed.

Lemma act_leaves_mark (a : action) (s : SettingsState) :
  leaves_mark a = true -> downloading (act a s) = downloading s.
Proof.
  destruct a as [r | [[id d] t] | backend m | backend deviceName];
    cbn [act leaves_mark]; intro Hquiet.
  - destruct r as [[v | e] | [v | e] | [v | e] | [[v w] | e]
                   | [v | e] | [v | e]]; reflexivity.
  - rewrite SettingsFacts.progress_listener_run.
    apply Z.ltb_lt in Hquiet.
    destruct (d >=? t)%Z eqn:Hge; [| reflexivity].
    apply Z.geb_le in Hge. lia.
  - discriminate.
  - pose proof (SettingsFacts.handleDeviceChange_run backend s deviceName)
      as Hrun.
    cbv zeta in Hrun. rewrite Hrun.
    destruct (backend _); reflexivity.
Qed.

Lemma perform_leaves_mark (actions : list action) (s : SettingsState) :
  forallb leaves_mark actions = true ->
  downloading (perform actions s) = downloading s.
Proof.
  revert s. induction actions as [| a actions IH]; intros s Hall.
  - reflexivity.
  - simpl in Hall. apply andb_prop in Hall as [Ha Hrest].
    rewrite perform_cons, (IH _ Hrest). apply act_leaves_mark. exact Ha.
Qed.

(** X12: a click on a model listed as missing sets the downloading mark
    before the handler awaits [download_model_size], and the rest of the
    handler never clears it. While the handler is suspended and after it has
    resumed, whether the command was fulfilled or rejected, and through any
    replies, device changes and progress events below their total that
    arrive before or after, the row stays disabled without its Download
    badge, and a click on it sends nothing and changes nothing. So a download
    that is rejected while no tick at or above its total arrives cannot be
    retried from the row. *)
Theorem pending_download_keeps_row_disabled (s : SettingsState)
  (size : string) (model : ModelInfo) (settled : promise unit)
  (before later : list action)
  (Hlisted : find (fun m => String.eqb (model_id m) size) (models s)
             = Some model)
  (Hmissing : model_downloaded model = false)
  (Hbefore : forallb leaves_mark before = true)
  (Hlater : forallb leaves_mark later = true) :
  snd (handleModelSelect_until_await size s)
    = Some (download_model_size size) /\
  disabled
    (model_row (perform before (fst (handleModelSelect_until_await size s)))
       model) = true /\
  disabled
    (model_row
       (perform later
          (handleModelSelect_after_await size settled
             (perform before (fst (handleModelSelect_until_await size s)))))
       model) = true /\
  downloadBadge
    (model_row
       (perform later
          (handleModelSelect_after_await size settled
             (perform before (fst (handleModelSelect_until_await size s)))))
       model) = false /\
  forall backend,
    onClick backend model
      (perform later
         (handleModelSelect_after_await size settled
            (perform before (fst (handleModelSelect_until_await size s)))))
    = mkRun
        (perform later
           (handleModelSelect_after_await size settled
              (perform before (fst (handleModelSelect_until_await size s)))))
        [] (returned tt).
Proof.
  pose proof (found_has_id s size model Hlisted) as Hid.
  unfold handleModelSelect_until_await. rewrite Hlisted, Hmissing.
  cbn [fst snd].
  assert (Hsuspended :
            downloading (perform before (setDownloading (Some size) s))
            = Some size).
  { rewrite (perform_leaves_mark before _ Hbefore). reflexivity. }
  assert (Hresumed :
            downloading
              (perform later
                 (handleModelSelect_after_await size settled
                    (perform before (setDownloading (Some size) s))))
            = Some size).
  { rewrite (perform_leaves_mark later _ Hlater).
    destruct settled; exact Hsuspended. }
  assert (Hrow : forall s', downloading s' = Some size ->
            isDownloading (model_row s' model) = true).
  { intros s' Hmark. destruct (row_of s' model) as [_ [Hdl _]].
    rewrite Hdl, Hmark, Hid. apply String.eqb_refl. }
  split; [reflexivity |].
  split.
  { destruct (row_of (perform before (setDownloading (Some size) s)) model)
      as [_ [_ [Hdis _]]].
    rewrite Hdis. apply Hrow. exact Hsuspended. }
  set (final := perform later
                  (handleModelSelect_after_await size settled
                     (perform before (setDownloading (Some size) s)))) in *.
  destruct (row_of final model) as [_ [_ [Hdis Hbadge]]].
  pose proof (Hrow final Hresumed) as Hbusy.
  split; [rewrite Hdis; exact Hbusy |].
  split; [rewrite Hbadge, Hbusy; apply andb_false_r |].
  intro backend. unfold onClick. rewrite Hdis, Hbusy. reflexivity.
Qed.

Lemma pending_download_keeps_row_disabled_witness :
  disabled
    (model_row
       (perform [Change accepting "USB Microphone"]
          (handleModelSelect_after_await "medium" (rejected "offline")
             (perform [Progress ("medium", 100, 500)%Z]
                (fst (handleModelSelect_until_await "medium" two_models)))))
       ("medium", "Medium (1.5GB)", false))
  = true.
Proof.
  apply (pending_download_keeps_row_disabled two_models "medium"
           ("medium", "Medium (1.5GB)", false) (rejected "offline")
           [Progress ("medium", 100, 500)%Z]
           [Change accepting "USB Microphone"]).
  - reflexivity.
  - reflexivity.
  - reflexivity.
  - reflexivity.
Defined.

(** The tick at its total, arriving while the handler is suspended, is what
    re-enables the row before the handler resumes. *)
Example final_tick_during_await_enables_row :
  disabled
    (model_row
       (handleModelSelect_after_await "medium" (fulfilled tt)
          (perform [Progress ("medium", 500, 500)%Z]
             (fst (handleModelSelect_until_await "medium" two_models))))
       ("medium", "Medium (1.5GB)", false))
  = false.
Proof. reflexivity. Qed.

(** X13: a progress event at or past its total clears the downloading mark
    and the stored progress whichever model it is for (the id of the event
    is not compared with the mark): after it no row is disabled or shows a
    bar, every row shows 0 percent, every model that is listed as missing
    shows its Download badge again, and the catalog is asked for anew. *)
Theorem final_tick_resets_every_row (s : SettingsState) (id : string)
  (d t : Z) (m : ModelInfo)
  (Hfinal : (t <= d)%Z) :
  fst (on_model_download_progress (id, d, t) s) = [get_available_models] /\
  downloading (snd (on_model_download_progress (id, d, t) s)) = None /\
  isDownloading (model_row (snd (on_model_download_progress (id, d, t) s)) m)
    = false /\
  disabled (model_row (snd (on_model_download_progress (id, d, t) s)) m)
    = false /\
  progress (model_row (snd (on_model_download_progress (id, d, t) s)) m)
    = of_int 0 /\
  downloadBadge (model_row (snd (on_model_download_progress (id, d, t) s)) m)
    = negb (model_downloaded m) /\
  isSelected (model_row (snd (on_model_download_progress (id, d, t) s)) m)
    = isSelected (model_row s m).
Proof.
  rewrite SettingsFacts.progress_listener_run.
  assert (Hge : (d >=? t)%Z = true) by (apply Z.geb_le; exact Hfinal).
  rewrite Hge. destruct m as [[mid label] flag]. simpl.
  repeat split. apply andb_true_r.
Qed.

Lemma final_tick_resets_every_row_witness :
  downloading
    (snd (on_model_download_progress ("small", 500, 500)%Z
            (setDownloading (Some "medium") two_models)))
  = None.
Proof.
  apply (final_tick_resets_every_row
           (setDownloading (Some "medium") two_models) "small" 500 500
           ("medium", "Medium (1.5GB)", false)).
  lia.
Defined.

(** *** The stored progress over a whole run *)

Lemma reply_keeps_progress (r : reply) (s : SettingsState) :
  downloadProgress (on_reply r s) = downloadProgress s.
Proof.
  destruct r as [[v | e] | [v | e] | [v | e] | [[v w] | e]
                 | [v | e] | [v | e]]; reflexivity.
Qed.

Lemma select_keeps_progress (backend : command -> promise unit)
  (size : string) (s : SettingsState) :
  downloadProgress (after (handleModelSelect backend size s))
  = downloadProgress s.
Proof.
  destruct (find (fun m => String.eqb (model_id m) size) (models s))
    as [model |] eqn:Hfind.
  - destruct (model_downloaded model) eqn:Hflag.
    + rewrite (SettingsFacts.select_downloaded backend s size model
                 Hfind Hflag).
      destruct (backend (set_model_size size)); reflexivity.
    + rewrite (SettingsFacts.select_missing backend s size model
                 Hfind Hflag).
      destruct (backend (download_model_size size)); reflexivity.
  - rewrite (SettingsFacts.select_unknown backend s size Hfind). reflexivity.
Qed.

Lemma act_keeps_partial (a : action) (s : SettingsState) :
  action_counts_bytes a = true ->
  stored_tick_is_partial s -> stored_tick_is_partial (act a s).
Proof.
  unfold stored_tick_is_partial.
  destruct a as [r | [[id d] t] | backend m | backend deviceName];
    cbn [act action_counts_bytes]; intros Hcount Hinv.
  - rewrite reply_keeps_progress. exact Hinv.
  - rewrite SettingsFacts.progress_listener_run.
    apply Z.leb_le in Hcount.
    destruct (d >=? t)%Z eqn:Hge; cbn [snd downloadProgress]; [exact I |].
    cbn [downloaded total]. split; [exact Hcount |].
    destruct (Z.lt_ge_cases d t) as [H | H]; [exact H |].
    apply Z.geb_le in H. congruence.
  - unfold onClick. destruct (disabled (model_row s m)).
    + exact Hinv.
    + rewrite select_keeps_progress. exact Hinv.
  - pose proof (SettingsFacts.handleDeviceChange_run backend s deviceName)
      as Hrun.
    cbv zeta in Hrun. rewrite Hrun.
    destruct (backend (set_audio_device _)); exact Hinv.
Qed.

Lemma perform_keeps_partial (actions : list action) (s : SettingsState) :
  forallb action_counts_bytes actions = true ->
  stored_tick_is_partial s -> stored_tick_is_partial (perform actions s).
Proof.
  revert s. induction actions as [| a actions IH]; intros s Hall Hinv.
  - exact Hinv.
  - simpl in Hall. apply andb_prop in Hall as [Ha Hrest].
    rewrite perform_cons. apply IH; [exact Hrest |].
    apply act_keeps_partial; assumption.
Qed.

(** X14: from the initial panel, through every run of replies, progress
    events, clicks and device changes in which the downloaded counts are not
    negative, a stored progress always has its downloaded count below its
    total; so no row ever divides by zero, and every row shows a whole
    percentage between 0 and 100. *)
Theorem rows_show_a_percentage (actions : list action) (m : ModelInfo)
  (Hcounts : forallb action_counts_bytes actions = true) :
  stored_tick_is_partial (perform actions initial) /\
  exists n : Z,
    progress (model_row (perform actions initial) m) = of_int n /\
    (0 <= n <= 100)%Z.
Proof.
  pose proof (perform_keeps_partial actions initial Hcounts I) as Hinv.
  split; [exact Hinv |].
  rewrite DownloadFacts.row_progress.
  unfold stored_tick_is_partial in Hinv.
  destruct (downloadProgress (perform actions initial)) as [p |].
  - destruct (String.eqb (size p) (model_id m)).
    + exists ((200 * downloaded p + total p) / (2 * total p))%Z. split.
      * apply JsFacts.round_percentage. lia.
      * apply OverlayRuns.percent_of_partial; lia.
    + exists 0%Z. split; [reflexivity | lia].
  - exists 0%Z. split; [reflexivity | lia].
Qed.

Lemma rows_show_a_percentage_witness :
  exists n : Z,
    progress
      (model_row
         (perform [Reply (available_models
                            (fulfilled [("small", "Small", false)]));
                   Click accepting ("small", "Small", false);
                   Progress ("small", 250, 1000)%Z] initial)
         ("small", "Small", false))
    = of_int n /\ (0 <= n <= 100)%Z.
Proof.
  apply (rows_show_a_percentage
           [Reply (available_models (fulfilled [("small", "Small", false)]));
            Click accepting ("small", "Small", false);
            Progress ("small", 250, 1000)%Z]
           ("small", "Small", false)).
  reflexivity.
Defined.

(** *** One selection at a time *)

Lemma filter_of_map {A B : Type} (h : A -> B) (keep : B -> bool)
  (l : list A) :
  List.length (filter keep (map h l))
  = List.length (filter (fun x => keep (h x)) l).
Proof.
  induction l as [| x l IH]; simpl; [reflexivity |].
  destruct (keep (h x)); simpl; rewrite IH; reflexivity.
Qed.

Lemma at_most_one_with_id (key : string) (catalog : list ModelInfo) :
  NoDup (map model_id catalog) ->
  (List.length
     (filter (fun m => String.eqb key (model_id m)) catalog) <= 1)%nat.
Proof.
  induction catalog as [| m catalog IH]; simpl; intro Hnodup; [lia |].
  apply NoDup_cons_iff in Hnodup as [Hnotin Hrest].
  destruct (String.eqb_spec key (model_id m)) as [Heq | Hne].
  - assert (Hnone : filter (fun x => String.eqb key (model_id x)) catalog
                    = []).
    { clear IH Hrest. induction catalog as [| x catalog IHc];
        [reflexivity |].
      simpl. destruct (String.eqb_spec key (model_id x)) as [Hx | Hx].
      - exfalso. apply Hnotin. left. congruence.
      - apply IHc. intro Hin. apply Hnotin. right. exact Hin. }
    rewrite Hnone. simpl. lia.
  - apply IH. exact Hrest.
Qed.

(** X15: the model list behaves like a group of radio buttons. When the ids
    of the listed catalog are distinct, at most one row is drawn as selected
    and at most one row is disabled with a progress bar, in every state of
    the panel. *)
Theorem one_row_at_a_time (s : SettingsState)
  (Hids : NoDup (map model_id (models s))) :
  (List.length (filter isSelected (model_rows s)) <= 1)%nat /\
  (List.length (filter isDownloading (model_rows s)) <= 1)%nat /\
  (List.length (filter disabled (model_rows s)) <= 1)%nat.
Proof.
  unfold model_rows. rewrite !filter_of_map.
  assert (Hsel : filter (fun m => isSelected (model_row s m)) (models s)
                 = filter (fun m => String.eqb (selectedModel s) (model_id m))
                     (models s)).
  { apply filter_ext. intro m. apply (row_of s m). }
  assert (Hdis : filter (fun m => disabled (model_row s m)) (models s)
                 = filter (fun m => isDownloading (model_row s m))
                     (models s)).
  { apply filter_ext. intro m. apply (row_of s m). }
  rewrite Hsel, Hdis.
  split; [apply at_most_one_with_id; exact Hids |].
  assert (Hbusy : (List.length
                     (filter (fun m => isDownloading (model_row s m))
                        (models s)) <= 1)%nat).
  { destruct (downloading s) as [d |] eqn:Hd.
    - rewrite (filter_ext _ (fun m => String.eqb d (model_id m))).
      + apply at_most_one_with_id. exact Hids.
      + intro m. destruct (row_of s m) as [_ [H _]]. rewrite H, Hd.
        reflexivity.
    - rewrite (filter_ext _ (fun _ => false)).
      + clear. induction (models s); simpl; lia.
      + intro m. destruct (row_of s m) as [_ [H _]]. rewrite H, Hd.
        reflexivity. }
  split; exact Hbusy.
Qed.

Lemma one_row_at_a_time_witness :
  (List.length (filter isSelected (model_rows two_models)) <= 1)%nat.
Proof.
  apply (one_row_at_a_time two_models).
  simpl. constructor.
  - intros [H | []]. discriminate.
  - constructor; [intros [] | constructor].
Defined.

End SettingsRuns.

(** ** What the overlay draws *)

Module OverlayDrawing.

Import Js Tauri Overlay Scenario.

Lemma bars_are_eighteen (st : RecordingState) (level : R) (tick : nat) :
  List.length (StateVisualizer st level tick) = 18%nat.
Proof.
  unfold StateVisualizer. rewrite length_map, length_seq. reflexivity.
Qed.

Lemma flat_bars (st : RecordingState) (level : R) (tick : nat) :
  showIcon st = true ->
  Forall (fun bar => height bar = 0%R /\ opacity bar = 0%R)
         (StateVisualizer st level tick).
Proof.
  intro Hicon. unfold StateVisualizer.
  apply Forall_map, Forall_forall. intros index _.
  destruct st; try discriminate; split; reflexivity.
Qed.

(** X16: the overlay draws exactly one of three things. The progress bar,
    when the model is not ready and a tick is stored; nothing, when the state
    is idle (and no bar is due); otherwise the visualizer, always with
    eighteen bars, showing either the bars (recording, processing) or the
    icon (done, error) but never both, and with all bars flat under the
    icon. *)
Theorem render_draws_one_thing (o : OverlayState) (tick : nat) :
  match render o tick with
  | ProgressBar width =>
      modelReady o = false /\
      exists stored, downloadProgress o = Some stored
                     /\ width = percent stored
  | Empty =>
      state o = idle /\ (modelReady o = true \/ downloadProgress o = None)
  | Visualizer bars icon =>
      state o <> idle /\
      (modelReady o = true \/ downloadProgress o = None) /\
      List.length bars = 18%nat /\
      icon = showIcon (state o) /\
      showBars (state o) = negb icon /\
      (icon = true ->
       Forall (fun bar => height bar = 0%R /\ opacity bar = 0%R) bars)
  end.
Proof.
  unfold render.
  assert (Hdue : forall ready stored,
            match ready, stored with
            | false, Some _ => True
            | _, _ => ready = true \/ stored = (None : option (Z * Z))
            end).
  { intros [|] [p |]; auto. }
  specialize (Hdue (modelReady o) (downloadProgress o)).
  assert (Hrest :
    match (if RecordingState_eqb (state o) idle then Empty
           else Visualizer (StateVisualizer (state o) (audioLevel o) tick)
                           (showIcon (state o))) with
    | ProgressBar _ => False
    | Empty => state o = idle
    | Visualizer bars icon =>
        state o <> idle /\
        List.length bars = 18%nat /\
        icon = showIcon (state o) /\
        showBars (state o) = negb icon /\
        (icon = true ->
         Forall (fun bar => height bar = 0%R /\ opacity bar = 0%R) bars)
    end).
  { destruct (state o) eqn:Hst; simpl RecordingState_eqb; cbv iota;
      try reflexivity;
      (split; [discriminate |]);
      (split; [apply bars_are_eighteen |]);
      (split; [reflexivity |]);
      (split; [reflexivity |]);
      apply flat_bars. }
  destruct (modelReady o); destruct (downloadProgress o) as [stored |];
    try (split; [reflexivity | exists stored; split; reflexivity]);
    destruct (if RecordingState_eqb (state o) idle then Empty else _);
    try contradiction; intuition.
Qed.

(** X17: audio-level events change the picture only while recording. In
    every other state (idle, processing, done, error), and also while the
    progress bar is up, the overlay draws the same after an audio-level event
    as before it, for every level and at every tick. *)
Theorem level_matters_only_while_recording (o : OverlayState) (level : R)
  (tick : nat)
  (Hstate : state o <> recording) :
  render (listen (audio_level level) o) tick = render o tick.
Proof.
  unfold render. simpl.
  destruct (modelReady o); destruct (downloadProgress o);
    destruct (state o); try reflexivity; contradiction.
Qed.

Lemma level_matters_only_while_recording_witness :
  render (listen (audio_level 0.9%R)
            (mkOverlay processing true 0%R None)) 12
  = render (mkOverlay processing true 0%R None) 12.
Proof.
  apply level_matters_only_while_recording. discriminate.
Defined.

End OverlayDrawing.
